(** * ZHeap: the orchestrator of the Z garbage collector

    A shallow embedding of [src/hotspot/share/gc/z/zHeap.cpp].

    [ZHeap] owns the page allocator, the page table, the forwarding table,
    the marking and relocation engines and the relocation set, and drives
    them from a handful of entry points.  Each entry point is embedded as a
    computation in a small state-and-halt monad over the [World]: the
    members of the heap, the runtime globals the file reads and writes
    ([ZGlobalPhase], [ZGlobalSeqNum], the VM flags, the resurrection
    block), and the log of the calls made to the other components, in
    program order.  A failed [guarantee] (and, in a debug build, a failed
    [assert]) halts the computation where it stands. *)

From Stdlib Require Import ZArith String List Bool Lia.
From stdpp Require Import base strings gmap list sorting.
Import ListNotations.

Local Open Scope Z_scope.

(** ** Data owned by other components *)

(** [ZGlobalPhase] takes the three values this file assigns or tests. *)
Inductive ZPhase : Type :=
| ZPhaseMark
| ZPhaseMarkCompleted
| ZPhaseRelocate.

Definition ZPhase_eqb (a b : ZPhase) : bool :=
  match a, b with
  | ZPhaseMark, ZPhaseMark => true
  | ZPhaseMarkCompleted, ZPhaseMarkCompleted => true
  | ZPhaseRelocate, ZPhaseRelocate => true
  | _, _ => false
  end.

(** The causes [should_unload_class] switches on are named as in the
    source; every other enumerator of [GCCause::Cause] (declared in
    gcCause.hpp, outside this file) is [_other n]. *)
Module GCCause.
Inductive Cause : Type :=
| _wb_young_gc
| _wb_conc_mark
| _wb_full_gc
| _dcmd_gc_run
| _java_lang_system_gc
| _full_gc_alot
| _scavenge_alot
| _jvmti_force_gc
| _metadata_GC_clear_soft_refs
| _other (n : nat).
End GCCause.

(** Modelled from the spec: class [ZPage] (zPage.hpp is outside this file).
    A page is a typed address range with its liveness marking state and its
    allocating and relocatable flags; [is_marked], [is_relocatable] and
    [is_allocating] are the queries the heap makes. *)
Record ZPage : Type := mkZPage {
  page_type : Z;
  page_start : Z;
  page_size : Z;
  is_allocating : bool;
  is_relocatable : bool;
  is_marked : bool
}.

(** Modelled from the spec: class [ZForwarding].  One record per page of
    the relocation set.  A forwarding is identified by the page it
    redirects; the old-offset to new-address entries that relocation fills
    in belong to the relocation engine and are part of its state. *)
Record ZForwarding : Type := mkZForwarding {
  forwarding_page : ZPage
}.

Definition ZForwarding_create (page : ZPage) : ZForwarding :=
  {| forwarding_page := page |}.

Definition forwarding_start (f : ZForwarding) : Z :=
  page_start (forwarding_page f).

(** Modelled from the spec: class [ZPageAllocator], as far as the heap
    observes it.  The statistics are plain counters; the deferred-delete
    mode is kept as the number of [enable_deferred_delete] calls not yet
    matched by a [disable_deferred_delete], and the mode is on while that
    number is positive. *)
Record ZPageAllocator : Type := mkZPageAllocator {
  pa_max_capacity : Z;
  pa_capacity : Z;
  pa_used : Z;
  pa_used_high : Z;
  pa_used_low : Z;
  pa_allocated : Z;
  pa_reclaimed : Z;
  pa_deferred_delete : nat
}.

Definition pa_with_deferred_delete (n : nat) (pa : ZPageAllocator) : ZPageAllocator :=
  {| pa_max_capacity := pa_max_capacity pa;
     pa_capacity := pa_capacity pa;
     pa_used := pa_used pa;
     pa_used_high := pa_used_high pa;
     pa_used_low := pa_used_low pa;
     pa_allocated := pa_allocated pa;
     pa_reclaimed := pa_reclaimed pa;
     pa_deferred_delete := n |}.

Definition ZPageAllocator_enable_deferred_delete (pa : ZPageAllocator) : ZPageAllocator :=
  pa_with_deferred_delete (S (pa_deferred_delete pa)) pa.

Definition ZPageAllocator_disable_deferred_delete (pa : ZPageAllocator) : ZPageAllocator :=
  pa_with_deferred_delete (pred (pa_deferred_delete pa)) pa.

Definition deferred_delete_enabled (pa : ZPageAllocator) : bool :=
  negb (Nat.eqb (pa_deferred_delete pa) 0).

(** Modelled from the spec: class [ZRelocationSetSelector].  The selector
    keeps the pages registered live apart from the pages registered
    garbage. *)
Record ZRelocationSetSelector : Type := mkSelector {
  registered_live : list ZPage;
  registered_garbage : list ZPage
}.

Definition ZRelocationSetSelector_new : ZRelocationSetSelector :=
  {| registered_live := []; registered_garbage := [] |}.

Definition register_live_page (page : ZPage) (s : ZRelocationSetSelector)
  : ZRelocationSetSelector :=
  {| registered_live := registered_live s ++ [page];
     registered_garbage := registered_garbage s |}.

Definition register_garbage_page (page : ZPage) (s : ZRelocationSetSelector)
  : ZRelocationSetSelector :=
  {| registered_live := registered_live s;
     registered_garbage := registered_garbage s ++ [page] |}.

(** The samplers declared at the top of the file. *)
Inductive ZStatSampler : Type :=
| ZSamplerHeapUsedBeforeMark
| ZSamplerHeapUsedAfterMark
| ZSamplerHeapUsedBeforeRelocation
| ZSamplerHeapUsedAfterRelocation.

(** ** The components the heap drives

    The engines below are implemented outside zHeap.cpp.  The heap only
    sees the type of their state and the result of the calls it makes, so
    they are taken as an interface; every statement about the heap holds
    for each implementation of it. *)
Class ZCollaborators : Type := {
  ZMark : Type;
  ZRelocate : Type;
  (** [ZMark::end]: true when marking has terminated. *)
  ZMark_end : ZMark -> bool * ZMark;
  (** [ZRelocate::relocate]: true when the whole set was relocated. *)
  ZRelocate_relocate : ZRelocate -> list ZForwarding -> bool * ZRelocate;
  (** [ZPageAllocator::alloc_page]: the new page, or [None] for NULL. *)
  ZPageAllocator_alloc_page :
    Z -> Z -> Z -> ZPageAllocator -> option ZPage * ZPageAllocator;
  (** [ZPageAllocator::free_page]. *)
  ZPageAllocator_free_page : ZPage -> bool -> ZPageAllocator -> ZPageAllocator;
  (** [ZRelocationSetSelector::select]: the pages chosen for relocation. *)
  ZRelocationSetSelector_select : ZRelocationSetSelector -> list ZPage;
  (** The constant [M] of globalDefinitions.hpp, the unit [print_on]
      reports sizes in. *)
  M_bytes : Z
}.

(** The contract of the selector: it chooses among the pages that were
    registered live. *)
Definition selects_registered_live {X : ZCollaborators} : Prop :=
  forall (s : ZRelocationSetSelector) (p : ZPage),
    In p (ZRelocationSetSelector_select s) -> In p (registered_live s).

(** ** Calls to other components, as logged *)
Inductive Event : Type :=
| Call_page_allocator_alloc_page (type size flags : Z) (result : option ZPage)
| Call_page_allocator_free_page (page : ZPage) (reclaimed : bool)
| Call_page_allocator_enable_deferred_delete
| Call_page_allocator_disable_deferred_delete
| Call_page_table_insert (page : ZPage)
| Call_page_table_remove (page : ZPage)
| Call_forwarding_table_insert (f : ZForwarding)
| Call_forwarding_table_remove (f : ZForwarding)
| Call_mark_end (result : bool)
| Call_MetaspaceGC_compute_new_size
| Call_ZStatSample (sampler : ZStatSampler) (value : Z)
| Call_ZStatHeap_set_at_mark_end (capacity allocated used : Z)
| Call_ZResurrection_block
| Call_ZResurrection_unblock
| Call_weak_roots_processor_process_weak_roots
| Call_weak_roots_processor_process_concurrent_weak_roots
| Call_unload_prepare
| Call_unload_unload
| Call_reference_processor_process_references
| Call_reference_processor_enqueue_references
| Call_selector_register_live_page (page : ZPage)
| Call_selector_register_garbage_page (page : ZPage)
| Call_selector_select (selected : list ZPage)
| Call_ZStatRelocation_set_at_select_relocation_set (s : ZRelocationSetSelector)
| Call_ZStatHeap_set_at_select_relocation_set (s : ZRelocationSetSelector) (reclaimed : Z)
| Call_relocation_set_reset
| Call_relocate_relocate (set : list ZForwarding) (result : bool)
| Call_ZStatRelocation_set_at_relocate_end (success : bool)
| Call_ZStatHeap_set_at_relocate_end
    (capacity allocated reclaimed used used_high used_low : Z)
| Call_print_cr_heap (used_M capacity_M max_capacity_M : Z)
| Call_MetaspaceUtils_print_on
| Call_st_cr
| Call_page_print_on (page : ZPage)
| Call_workers_run_parallel_ZVerifyRootsTask
| Call_heap_iterator_objects_do (visit_referents : bool).

(** ** The world *)

(** The globals of the runtime this file reads or writes.  [ASSERT] tells
    whether the build compiles [assert] in (a debug build); [guarantee] is
    checked in every build. *)
Record Runtime : Type := mkRuntime {
  ZGlobalPhase : ZPhase;
  ZGlobalSeqNum : Z;
  ClassUnloading : bool;
  ZUnloadClassesFrequency : Z;
  gc_cause : GCCause.Cause;
  is_at_safepoint : bool;
  ASSERT : bool;
  ZResurrection_blocked : bool
}.

Definition rt_with_phase (ph : ZPhase) (r : Runtime) : Runtime :=
  {| ZGlobalPhase := ph;
     ZGlobalSeqNum := ZGlobalSeqNum r;
     ClassUnloading := ClassUnloading r;
     ZUnloadClassesFrequency := ZUnloadClassesFrequency r;
     gc_cause := gc_cause r;
     is_at_safepoint := is_at_safepoint r;
     ASSERT := ASSERT r;
     ZResurrection_blocked := ZResurrection_blocked r |}.

Definition rt_with_blocked (b : bool) (r : Runtime) : Runtime :=
  {| ZGlobalPhase := ZGlobalPhase r;
     ZGlobalSeqNum := ZGlobalSeqNum r;
     ClassUnloading := ClassUnloading r;
     ZUnloadClassesFrequency := ZUnloadClassesFrequency r;
     gc_cause := gc_cause r;
     is_at_safepoint := is_at_safepoint r;
     ASSERT := ASSERT r;
     ZResurrection_blocked := b |}.

Definition rt_with_seqnum (n : Z) (r : Runtime) : Runtime :=
  {| ZGlobalPhase := ZGlobalPhase r;
     ZGlobalSeqNum := n;
     ClassUnloading := ClassUnloading r;
     ZUnloadClassesFrequency := ZUnloadClassesFrequency r;
     gc_cause := gc_cause r;
     is_at_safepoint := is_at_safepoint r;
     ASSERT := ASSERT r;
     ZResurrection_blocked := ZResurrection_blocked r |}.

Section Heap.

Context {X : ZCollaborators}.

(** The members of [ZHeap] the modelled entry points touch.  The page
    table and the forwarding table are keyed by the start address of the
    page. *)
Record ZHeap : Type := mkZHeap {
  _page_allocator : ZPageAllocator;
  _page_table : gmap Z ZPage;
  _forwarding_table : gmap Z ZForwarding;
  _mark : ZMark;
  _relocate : ZRelocate;
  _relocation_set : list ZForwarding
}.

Record World : Type := mkWorld {
  runtime : Runtime;
  heap : ZHeap;
  trace : list Event
}.

Definition with_runtime (f : Runtime -> Runtime) (w : World) : World :=
  {| runtime := f (runtime w); heap := heap w; trace := trace w |}.

Definition with_heap (f : ZHeap -> ZHeap) (w : World) : World :=
  {| runtime := runtime w; heap := f (heap w); trace := trace w |}.

Definition log (e : Event) (w : World) : World :=
  {| runtime := runtime w; heap := heap w; trace := trace w ++ [e] |}.

Definition heap_with_page_allocator (pa : ZPageAllocator) (h : ZHeap) : ZHeap :=
  {| _page_allocator := pa;
     _page_table := _page_table h;
     _forwarding_table := _forwarding_table h;
     _mark := _mark h;
     _relocate := _relocate h;
     _relocation_set := _relocation_set h |}.

Definition heap_with_page_table (pt : gmap Z ZPage) (h : ZHeap) : ZHeap :=
  {| _page_allocator := _page_allocator h;
     _page_table := pt;
     _forwarding_table := _forwarding_table h;
     _mark := _mark h;
     _relocate := _relocate h;
     _relocation_set := _relocation_set h |}.

Definition heap_with_forwarding_table (ft : gmap Z ZForwarding) (h : ZHeap) : ZHeap :=
  {| _page_allocator := _page_allocator h;
     _page_table := _page_table h;
     _forwarding_table := ft;
     _mark := _mark h;
     _relocate := _relocate h;
     _relocation_set := _relocation_set h |}.

Definition heap_with_mark (m : ZMark) (h : ZHeap) : ZHeap :=
  {| _page_allocator := _page_allocator h;
     _page_table := _page_table h;
     _forwarding_table := _forwarding_table h;
     _mark := m;
     _relocate := _relocate h;
     _relocation_set := _relocation_set h |}.

Definition heap_with_relocate (r : ZRelocate) (h : ZHeap) : ZHeap :=
  {| _page_allocator := _page_allocator h;
     _page_table := _page_table h;
     _forwarding_table := _forwarding_table h;
     _mark := _mark h;
     _relocate := r;
     _relocation_set := _relocation_set h |}.

Definition heap_with_relocation_set (rs : list ZForwarding) (h : ZHeap) : ZHeap :=
  {| _page_allocator := _page_allocator h;
     _page_table := _page_table h;
     _forwarding_table := _forwarding_table h;
     _mark := _mark h;
     _relocate := _relocate h;
     _relocation_set := rs |}.

(** ** The monad: state, and a halt that keeps the state reached *)
Inductive Outcome (A : Type) : Type :=
| Returned (a : A) (w : World)
| Halted (msg : string) (w : World).

Arguments Returned {A} a w.
Arguments Halted {A} msg w.

Definition M (A : Type) : Type := World -> Outcome A.

Definition ret {A : Type} (a : A) : M A := fun w => Returned a w.

Definition bind {A B : Type} (m : M A) (k : A -> M B) : M B :=
  fun w =>
    match m w with
    | Returned a w' => k a w'
    | Halted msg w' => Halted msg w'
    end.

Definition gets {A : Type} (f : World -> A) : M A := fun w => Returned (f w) w.

Definition modify (f : World -> World) : M unit := fun w => Returned tt (f w).

Definition call (e : Event) : M unit := modify (log e).

(** [guarantee(cond, msg)]: checked in every build. *)
Definition guarantee (cond : bool) (msg : string) : M unit :=
  fun w => if cond then Returned tt w else Halted msg w.

(** [assert(cond, msg)]: checked in a debug build only. *)
Definition assert (cond : bool) (msg : string) : M unit :=
  fun w => if ASSERT (runtime w) then guarantee cond msg w else Returned tt w.

End Heap.

Arguments Returned {X A} a w.
Arguments Halted {X A} msg w.

Declare Scope heap_scope.
Delimit Scope heap_scope with heap.
Notation "x <- m ;; k" := (bind m (fun x => k))
  (at level 20, m at level 99, k at level 200, right associativity) : heap_scope.
Notation "m ;; k" := (bind m (fun _ => k))
  (at level 100, k at level 200, right associativity) : heap_scope.

(** ** The order of the page table

    [ZPageTableIterator] walks the page table from the lowest address up:
    [page_table_entries] are the entries of the table in ascending order
    of address. *)
Definition slot_le (a b : Z * ZPage) : Prop := fst a <= fst b.

#[global] Instance slot_le_dec : RelDecision slot_le :=
  fun a b => decide (fst a <= fst b).

Definition page_table_entries (pt : gmap Z ZPage) : list (Z * ZPage) :=
  merge_sort slot_le (map_to_list pt).

(** ** The entry points of [ZHeap] *)
Section Operations.

Context {X : ZCollaborators}.

Local Open Scope heap_scope.

(** *** Accessors forwarded to the page allocator *)
Definition max_capacity : M Z := gets (fun w => pa_max_capacity (_page_allocator (heap w))).
Definition capacity : M Z := gets (fun w => pa_capacity (_page_allocator (heap w))).
Definition used_high : M Z := gets (fun w => pa_used_high (_page_allocator (heap w))).
Definition used_low : M Z := gets (fun w => pa_used_low (_page_allocator (heap w))).
Definition used : M Z := gets (fun w => pa_used (_page_allocator (heap w))).
Definition allocated : M Z := gets (fun w => pa_allocated (_page_allocator (heap w))).
Definition reclaimed : M Z := gets (fun w => pa_reclaimed (_page_allocator (heap w))).

(** *** Calls on the members *)

(** [_page_allocator.alloc_page(type, size, flags)] *)
Definition page_allocator_alloc_page (type size flags : Z) : M (option ZPage) :=
  fun w =>
    let r := ZPageAllocator_alloc_page type size flags (_page_allocator (heap w)) in
    Returned (fst r)
      (log (Call_page_allocator_alloc_page type size flags (fst r))
           (with_heap (heap_with_page_allocator (snd r)) w)).

(** [_page_allocator.free_page(page, reclaimed)] *)
Definition page_allocator_free_page (page : ZPage) (reclaimed : bool) : M unit :=
  modify (fun w =>
    log (Call_page_allocator_free_page page reclaimed)
        (with_heap (fun h =>
           heap_with_page_allocator
             (ZPageAllocator_free_page page reclaimed (_page_allocator h)) h) w)).

(** [_page_allocator.enable_deferred_delete()] *)
Definition page_allocator_enable_deferred_delete : M unit :=
  modify (fun w =>
    log Call_page_allocator_enable_deferred_delete
        (with_heap (fun h =>
           heap_with_page_allocator
             (ZPageAllocator_enable_deferred_delete (_page_allocator h)) h) w)).

(** [_page_allocator.disable_deferred_delete()] *)
Definition page_allocator_disable_deferred_delete : M unit :=
  modify (fun w =>
    log Call_page_allocator_disable_deferred_delete
        (with_heap (fun h =>
           heap_with_page_allocator
             (ZPageAllocator_disable_deferred_delete (_page_allocator h)) h) w)).

(** [_page_table.insert(page)] *)
Definition page_table_insert (page : ZPage) : M unit :=
  modify (fun w =>
    log (Call_page_table_insert page)
        (with_heap (fun h =>
           heap_with_page_table (<[page_start page := page]> (_page_table h)) h) w)).

(** [_page_table.remove(page)] *)
Definition page_table_remove (page : ZPage) : M unit :=
  modify (fun w =>
    log (Call_page_table_remove page)
        (with_heap (fun h =>
           heap_with_page_table (delete (page_start page) (_page_table h)) h) w)).

(** [ZPageTableIterator]: the iterator walks the slots of the page table
    in order, and [next] yields the page found in a slot when it gets
    there, so that an entry removed in the meantime is passed over.
    [page_table_entries] are the entries of the table in ascending order
    of address, [page_table_slots] the slots to walk, in that order;
    [page_table_iterate] is the loop
    [for (ZPage* page; iter.next(&page);) body], threading the local state
    [s] of the body. *)
Definition page_table_slots : M (list Z) :=
  gets (fun w => fst <$> page_table_entries (_page_table (heap w))).

Fixpoint page_table_iterate {S : Type} (slots : list Z)
  (body : ZPage -> S -> World -> Outcome S) (s : S) (w : World) : Outcome S :=
  match slots with
  | [] => Returned s w
  | slot :: rest =>
      match _page_table (heap w) !! slot with
      | Some page =>
          match body page s w with
          | Returned s' w' => page_table_iterate rest body s' w'
          | Halted msg w' => Halted msg w'
          end
      | None => page_table_iterate rest body s w
      end
  end.

(** [_forwarding_table.insert(forwarding)] *)
Definition forwarding_table_insert (f : ZForwarding) : M unit :=
  modify (fun w =>
    log (Call_forwarding_table_insert f)
        (with_heap (fun h =>
           heap_with_forwarding_table
             (<[forwarding_start f := f]> (_forwarding_table h)) h) w)).

(** [_forwarding_table.remove(forwarding)] *)
Definition forwarding_table_remove (f : ZForwarding) : M unit :=
  modify (fun w =>
    log (Call_forwarding_table_remove f)
        (with_heap (fun h =>
           heap_with_forwarding_table
             (delete (forwarding_start f) (_forwarding_table h)) h) w)).

(** [ZRelocationSetIterator]: the forwardings of the relocation set. *)
Definition relocation_set_iterator : M (list ZForwarding) :=
  gets (fun w => _relocation_set (heap w)).

(** [_relocation_set.reset()] *)
Definition relocation_set_reset : M unit :=
  modify (fun w =>
    log Call_relocation_set_reset (with_heap (heap_with_relocation_set []) w)).

(** [selector.select(&_relocation_set)]: one forwarding per chosen page. *)
Definition selector_select (selector : ZRelocationSetSelector) : M unit :=
  modify (fun w =>
    let pages := ZRelocationSetSelector_select selector in
    log (Call_selector_select pages)
        (with_heap (heap_with_relocation_set (ZForwarding_create <$> pages)) w)).

(** [_mark.end()] *)
Definition mark_end_call : M bool :=
  fun w =>
    let r := ZMark_end (_mark (heap w)) in
    Returned (fst r)
      (log (Call_mark_end (fst r)) (with_heap (heap_with_mark (snd r)) w)).

(** [_relocate.relocate(&_relocation_set)] *)
Definition relocate_relocate : M bool :=
  fun w =>
    let set := _relocation_set (heap w) in
    let r := ZRelocate_relocate (_relocate (heap w)) set in
    Returned (fst r)
      (log (Call_relocate_relocate set (fst r))
           (with_heap (heap_with_relocate (snd r)) w)).

(** [ZResurrection::block()] and [ZResurrection::unblock()] *)
Definition ZResurrection_block : M unit :=
  modify (fun w => log Call_ZResurrection_block (with_runtime (rt_with_blocked true) w)).

Definition ZResurrection_unblock : M unit :=
  modify (fun w => log Call_ZResurrection_unblock (with_runtime (rt_with_blocked false) w)).

(** [ZGlobalPhase = phase] *)
Definition set_ZGlobalPhase (ph : ZPhase) : M unit :=
  modify (with_runtime (rt_with_phase ph)).

Definition SafepointSynchronize_is_at_safepoint : M bool :=
  gets (fun w => is_at_safepoint (runtime w)).

Fixpoint for_each {A : Type} (l : list A) (body : A -> M unit) : M unit :=
  match l with
  | [] => ret tt
  | a :: l' => body a ;; for_each l' body
  end.

(** *** Page allocation *)

Definition alloc_page (type size flags : Z) : M (option ZPage) :=
  page <- page_allocator_alloc_page type size flags ;;
  match page with
  | Some p => page_table_insert p
  | None => ret tt
  end ;;
  ret page.

Definition free_page (page : ZPage) (reclaimed : bool) : M unit :=
  page_table_remove page ;;
  page_allocator_free_page page reclaimed.

(** *** Marking *)

Definition mark_end : M bool :=
  at_safepoint <- SafepointSynchronize_is_at_safepoint ;;
  assert at_safepoint "Should be at safepoint" ;;
  completed <- mark_end_call ;;
  if negb completed then ret false
  else
    set_ZGlobalPhase ZPhaseMarkCompleted ;;
    call Call_MetaspaceGC_compute_new_size ;;
    u <- used ;;
    call (Call_ZStatSample ZSamplerHeapUsedAfterMark u) ;;
    c <- capacity ;;
    a <- allocated ;;
    u' <- used ;;
    call (Call_ZStatHeap_set_at_mark_end c a u') ;;
    ZResurrection_block ;;
    call Call_weak_roots_processor_process_weak_roots ;;
    call Call_unload_prepare ;;
    ret true.

(** *** Class unloading and non-strong references *)

Definition cause_implies_unloading (cause : GCCause.Cause) : bool :=
  match cause with
  | GCCause._wb_young_gc
  | GCCause._wb_conc_mark
  | GCCause._wb_full_gc
  | GCCause._dcmd_gc_run
  | GCCause._java_lang_system_gc
  | GCCause._full_gc_alot
  | GCCause._scavenge_alot
  | GCCause._jvmti_force_gc
  | GCCause._metadata_GC_clear_soft_refs => true
  | GCCause._other _ => false
  end.

(** [ZGlobalSeqNum] is a [uint32_t]: the subtraction wraps. *)
Definition should_unload_class (r : Runtime) : bool :=
  if negb (ClassUnloading r) then false
  else if cause_implies_unloading (gc_cause r) then true
  else
    negb (ZUnloadClassesFrequency r =? 0)
    && (((ZGlobalSeqNum r - 1) mod 2 ^ 32) mod ZUnloadClassesFrequency r =? 0).

Definition process_non_strong_references : M unit :=
  call Call_reference_processor_process_references ;;
  call Call_weak_roots_processor_process_concurrent_weak_roots ;;
  unload <- gets (fun w => should_unload_class (runtime w)) ;;
  if unload then ret tt
  else
    ZResurrection_unblock ;;
    call Call_reference_processor_enqueue_references.

Definition finish_non_strong_references : M unit :=
  unload <- gets (fun w => should_unload_class (runtime w)) ;;
  guarantee unload "sanity" ;;
  ZResurrection_unblock ;;
  call Call_reference_processor_enqueue_references.

Definition unload_class : M unit := call Call_unload_unload.

(** *** Relocation *)

(** The body of the loop over the page table in [select_relocation_set];
    the selector is the local state of the loop. *)
Definition register_page (page : ZPage) (selector : ZRelocationSetSelector)
  : M ZRelocationSetSelector :=
  if negb (is_relocatable page) then ret selector
  else if is_marked page then
    call (Call_selector_register_live_page page) ;;
    ret (register_live_page page selector)
  else
    call (Call_selector_register_garbage_page page) ;;
    free_page page true ;;
    ret (register_garbage_page page selector).

Definition select_relocation_set : M unit :=
  page_allocator_enable_deferred_delete ;;
  slots <- page_table_slots ;;
  selector <- page_table_iterate slots register_page ZRelocationSetSelector_new ;;
  page_allocator_disable_deferred_delete ;;
  selector_select selector ;;
  forwardings <- relocation_set_iterator ;;
  for_each forwardings forwarding_table_insert ;;
  call (Call_ZStatRelocation_set_at_select_relocation_set selector) ;;
  r <- reclaimed ;;
  call (Call_ZStatHeap_set_at_select_relocation_set selector r).

Definition reset_relocation_set : M unit :=
  forwardings <- relocation_set_iterator ;;
  for_each forwardings forwarding_table_remove ;;
  relocation_set_reset.

Definition relocate : M unit :=
  success <- relocate_relocate ;;
  u <- used ;;
  call (Call_ZStatSample ZSamplerHeapUsedAfterRelocation u) ;;
  call (Call_ZStatRelocation_set_at_relocate_end success) ;;
  c <- capacity ;;
  a <- allocated ;;
  r <- reclaimed ;;
  u' <- used ;;
  uh <- used_high ;;
  ul <- used_low ;;
  call (Call_ZStatHeap_set_at_relocate_end c a r u' uh ul).

(** *** Printing and verification *)

Definition print_on : M unit :=
  u <- used ;;
  c <- capacity ;;
  mc <- max_capacity ;;
  call (Call_print_cr_heap (u / M_bytes) (c / M_bytes) (mc / M_bytes)) ;;
  call Call_MetaspaceUtils_print_on.

Definition print_extended_on : M unit :=
  print_on ;;
  call Call_st_cr ;;
  page_allocator_enable_deferred_delete ;;
  slots <- page_table_slots ;;
  page_table_iterate slots (fun page _ => call (Call_page_print_on page)) tt ;;
  page_allocator_enable_deferred_delete ;;
  call Call_st_cr.

Definition object_iterate (visit_referents : bool) : M unit :=
  at_safepoint <- SafepointSynchronize_is_at_safepoint ;;
  assert at_safepoint "Should be at safepoint" ;;
  call (Call_heap_iterator_objects_do visit_referents).

Definition verify : M unit :=
  phase <- gets (fun w => ZGlobalPhase (runtime w)) ;;
  guarantee (ZPhase_eqb phase ZPhaseMarkCompleted) "Invalid phase" ;;
  call Call_workers_run_parallel_ZVerifyRootsTask ;;
  object_iterate false.

End Operations.

(** ** The resting state of the collector

    The specification calls the state of the collector between two cycles
    Idle.  [ZGlobalPhase] has no value of its own for it: a cycle ends in
    the Relocate phase, and the phase stays there until the next
    [mark_start].  The collector is at rest when, in that phase, the
    relocation set is empty and the forwarding table holds no forwarding. *)
Definition collector_idle {X : ZCollaborators} (w : World) : Prop :=
  ZGlobalPhase (runtime w) = ZPhaseRelocate /\
  _relocation_set (heap w) = [] /\
  _forwarding_table (heap w) = ∅.

(** The forwarding table holds forwardings of the relocation set only, each
    under the start address of its page: what [select_relocation_set]
    leaves when it starts from an empty forwarding table. *)
Definition forwardings_of_relocation_set {X : ZCollaborators} (w : World) : Prop :=
  forall k f,
    _forwarding_table (heap w) !! k = Some f ->
    In f (_relocation_set (heap w)) /\ forwarding_start f = k.

(** Every entry of the page table sits at the start address of its page;
    [_page_table.insert] keys a page that way. *)
Definition page_table_wf (pt : gmap Z ZPage) : Prop :=
  map_Forall (fun k p => page_start p = k) pt.

(** ** What the loop of [select_relocation_set] does to one page *)

(** A page the loop registers live, and a page it registers garbage. *)
Definition is_live (page : ZPage) : bool :=
  is_relocatable page && is_marked page.

Definition is_garbage (page : ZPage) : bool :=
  is_relocatable page && negb (is_marked page).

(** The calls one iteration makes. *)
Definition register_calls (page : ZPage) : list Event :=
  if negb (is_relocatable page) then []
  else if is_marked page then [Call_selector_register_live_page page]
  else [Call_selector_register_garbage_page page;
        Call_page_table_remove page;
        Call_page_allocator_free_page page true].

(** The selector once the loop has run over [pages]. *)
Definition registered (pages : list ZPage) (s : ZRelocationSetSelector)
  : ZRelocationSetSelector :=
  {| registered_live := registered_live s ++ List.filter is_live pages;
     registered_garbage := registered_garbage s ++ List.filter is_garbage pages |}.

(** The page table once the pages of [pages] have been removed from it. *)
Definition remove_pages (pages : list ZPage) (pt : gmap Z ZPage) : gmap Z ZPage :=
  foldl (fun pt page => delete (page_start page) pt) pt pages.

(** The forwarding table once [fs] have been inserted, or removed. *)
Definition insert_forwardings (fs : list ZForwarding) (ft : gmap Z ZForwarding)
  : gmap Z ZForwarding :=
  foldl (fun ft f => <[forwarding_start f := f]> ft) ft fs.

Definition remove_forwardings (fs : list ZForwarding) (ft : gmap Z ZForwarding)
  : gmap Z ZForwarding :=
  foldl (fun ft f => delete (forwarding_start f) ft) ft fs.

(** The world [select_relocation_set] returns, given the world [w] and the
    selector [s] its loop over the page table leaves. *)
Definition after_selection {X : ZCollaborators}
  (s : ZRelocationSetSelector) (w : World) : World :=
  let selected := ZRelocationSetSelector_select s in
  let forwardings := ZForwarding_create <$> selected in
  let pa := ZPageAllocator_disable_deferred_delete (_page_allocator (heap w)) in
  {| runtime := runtime w;
     heap :=
       heap_with_forwarding_table
         (insert_forwardings forwardings (_forwarding_table (heap w)))
         (heap_with_relocation_set forwardings
            (heap_with_page_allocator pa (heap w)));
     trace :=
       trace w
       ++ Call_page_allocator_disable_deferred_delete
       :: Call_selector_select selected
       :: (Call_forwarding_table_insert <$> forwardings)
       ++ [Call_ZStatRelocation_set_at_select_relocation_set s;
           Call_ZStatHeap_set_at_select_relocation_set s (pa_reclaimed pa)] |}.

(** The same outcome in a world whose globals have been changed by [f]. *)
Definition outcome_with_runtime {X : ZCollaborators} {A : Type}
  (f : Runtime -> Runtime) (o : Outcome A) : Outcome A :=
  match o with
  | Returned a w => Returned a (with_runtime f w)
  | Halted msg w => Halted msg (with_runtime f w)
  end.

(** ** A small heap to run the entry points on *)
Module Scenario.

(** A simple implementation of the collaborators: marking has terminated
    when no mark-stack entry is left, relocation succeeds unless the
    engine is out of destination pages, the allocator hands out the
    address range after the used part while it fits, and the selector
    takes every page registered live. *)
#[export] Instance collaborators : ZCollaborators := {|
  ZMark := list Z;
  ZRelocate := bool;
  ZMark_end := fun stacks =>
    (match stacks with [] => true | _ :: _ => false end, stacks);
  ZRelocate_relocate := fun can_allocate _ => (can_allocate, can_allocate);
  ZPageAllocator_alloc_page := fun type size flags pa =>
    if pa_used pa + size <=? pa_max_capacity pa
    then (Some {| page_type := type; page_start := pa_used pa;
                  page_size := size; is_allocating := true;
                  is_relocatable := false; is_marked := false |},
          {| pa_max_capacity := pa_max_capacity pa;
             pa_capacity := pa_capacity pa;
             pa_used := pa_used pa + size;
             pa_used_high := Z.max (pa_used_high pa) (pa_used pa + size);
             pa_used_low := pa_used_low pa;
             pa_allocated := pa_allocated pa + size;
             pa_reclaimed := pa_reclaimed pa;
             pa_deferred_delete := pa_deferred_delete pa |})
    else (None, pa);
  ZPageAllocator_free_page := fun page reclaimed pa =>
    {| pa_max_capacity := pa_max_capacity pa;
       pa_capacity := pa_capacity pa;
       pa_used := pa_used pa - page_size page;
       pa_used_high := pa_used_high pa;
       pa_used_low := Z.min (pa_used_low pa) (pa_used pa - page_size page);
       pa_allocated := pa_allocated pa;
       pa_reclaimed :=
         if reclaimed then pa_reclaimed pa + page_size page else pa_reclaimed pa;
       pa_deferred_delete := pa_deferred_delete pa |};
  ZRelocationSetSelector_select := registered_live;
  M_bytes := 1024 * 1024
|}.

Definition granule : Z := 2097152.

(** Three small pages: one live, one garbage, one still allocating. *)
Definition live_page : ZPage :=
  {| page_type := 0; page_start := 0; page_size := granule;
     is_allocating := false; is_relocatable := true; is_marked := true |}.

Definition garbage_page : ZPage :=
  {| page_type := 0; page_start := granule; page_size := granule;
     is_allocating := false; is_relocatable := true; is_marked := false |}.

Definition fresh_page : ZPage :=
  {| page_type := 0; page_start := 2 * granule; page_size := granule;
     is_allocating := true; is_relocatable := false; is_marked := false |}.

Definition page_allocator0 : ZPageAllocator :=
  {| pa_max_capacity := 4 * granule; pa_capacity := 4 * granule;
     pa_used := 3 * granule; pa_used_high := 3 * granule;
     pa_used_low := 0; pa_allocated := 3 * granule; pa_reclaimed := 0;
     pa_deferred_delete := 0 |}.

Definition page_table0 : gmap Z ZPage :=
  <[page_start live_page := live_page]>
    (<[page_start garbage_page := garbage_page]>
       (<[page_start fresh_page := fresh_page]> ∅)).

Definition heap0 : ZHeap :=
  {| _page_allocator := page_allocator0;
     _page_table := page_table0;
     _forwarding_table := ∅;
     _mark := [];
     _relocate := true;
     _relocation_set := [] |}.

Definition runtime0 (phase : ZPhase) : Runtime :=
  {| ZGlobalPhase := phase;
     ZGlobalSeqNum := 1;
     ClassUnloading := true;
     ZUnloadClassesFrequency := 5;
     gc_cause := GCCause._other 0;
     is_at_safepoint := true;
     ASSERT := true;
     ZResurrection_blocked := false |}.

Definition world0 (phase : ZPhase) : World :=
  {| runtime := runtime0 phase; heap := heap0; trace := [] |}.

(** A runtime with class unloading switched off, collecting for
    [System.gc()]. *)
Definition runtime_no_unloading : Runtime :=
  {| ZGlobalPhase := ZPhaseMarkCompleted;
     ZGlobalSeqNum := 1;
     ClassUnloading := false;
     ZUnloadClassesFrequency := 5;
     gc_cause := GCCause._java_lang_system_gc;
     is_at_safepoint := true;
     ASSERT := true;
     ZResurrection_blocked := true |}.

(** The same heap with work left on the mark stacks. *)
Definition world_marking : World :=
  with_heap (heap_with_mark [4096]) (world0 ZPhaseMark).

(** The same heap with a relocation engine that stalls. *)
Definition world_stall : World :=
  with_heap (heap_with_relocate false) (world0 ZPhaseRelocate).

(** The heap once [live_page] has been selected for relocation. *)
Definition world_selected : World :=
  with_heap
    (fun h =>
       heap_with_forwarding_table
         (<[page_start live_page := ZForwarding_create live_page]> ∅)
         (heap_with_relocation_set [ZForwarding_create live_page] h))
    (world0 ZPhaseRelocate).

End Scenario.

(** * The other entry points of [ZHeap]

    The entry points below reach components the ones above do not: the
    object allocator, the address views, the statistics counters, the log.
    [VM] adds to the world the object allocator and the log of the calls
    to those components.  Each such call is logged with the number of
    calls [trace] held when it was made, which places it among them. *)

(** The counters declared at the top of the file. *)
Inductive ZStatCounter : Type :=
| ZCounterUndoPageAllocation
| ZCounterOutOfMemory.

Inductive VMCall : Type :=
| Call_ZStatInc (counter : ZStatCounter)
| Call_log_info_out_of_memory
| Call_log_trace_undo_page_allocation (page : ZPage) (size : Z)
| Call_object_allocator_retire_tlabs
| Call_object_allocator_remap_tlabs
| Call_ZVerifyViewsFlip_construct
| Call_ZVerifyViewsFlip_destruct
| Call_ZAddress_flip_to_marked
| Call_ZAddress_flip_to_remapped
| Call_page_allocator_reset_statistics
| Call_reference_processor_reset_statistics
| Call_mark_start
| Call_mark_mark
| Call_ZStatHeap_set_at_mark_start (soft_max_capacity capacity used : Z)
| Call_ZStatHeap_set_at_relocate_start (capacity allocated used : Z)
| Call_relocate_start
| Call_closure_do_page (page : ZPage)
| Call_page_allocator_pages_do.

(** The components these entry points drive, implemented outside
    zHeap.cpp and taken as an interface like the ones above.
    [ZMark::start] resets the marking information: the state of the mark
    engine and the global sequence number. *)
Class ZVMCollaborators {X : ZCollaborators} : Type := {
  ZObjectAllocator : Type;
  (** [ZObjectAllocator::used] and [ZObjectAllocator::remaining]. *)
  ZObjectAllocator_used : ZObjectAllocator -> Z;
  ZObjectAllocator_remaining : ZObjectAllocator -> Z;
  (** [ZObjectAllocator::retire_tlabs] and [ZObjectAllocator::remap_tlabs]. *)
  ZObjectAllocator_retire_tlabs : ZObjectAllocator -> ZObjectAllocator;
  ZObjectAllocator_remap_tlabs : ZObjectAllocator -> ZObjectAllocator;
  (** [ZMark::start], on the mark engine and [ZGlobalSeqNum]. *)
  ZMark_start : ZMark -> Z -> ZMark * Z;
  (** [ZMark::mark]. *)
  ZMark_mark : ZMark -> ZMark;
  (** [ZRelocate::start]. *)
  ZRelocate_start : ZRelocate -> ZRelocate;
  (** [ZPageAllocator::reset_statistics] and
      [ZPageAllocator::soft_max_capacity]. *)
  ZPageAllocator_reset_statistics : ZPageAllocator -> ZPageAllocator;
  ZPageAllocator_soft_max_capacity : ZPageAllocator -> Z;
  (** The flag [MinTLABSize] and the constant [ZObjectSizeLimitSmall]. *)
  MinTLABSize : Z;
  ZObjectSizeLimitSmall : Z
}.

Section VMOperations.

Context {X : ZCollaborators} {Y : ZVMCollaborators}.

Record VM : Type := mkVM {
  vm_world : World;
  _object_allocator : ZObjectAllocator;
  vm_calls : list (nat * VMCall)
}.

Definition vm_with_world (w : World) (vm : VM) : VM :=
  {| vm_world := w;
     _object_allocator := _object_allocator vm;
     vm_calls := vm_calls vm |}.

Definition vm_with_object_allocator (oa : ZObjectAllocator) (vm : VM) : VM :=
  {| vm_world := vm_world vm;
     _object_allocator := oa;
     vm_calls := vm_calls vm |}.

Definition vm_log (c : VMCall) (vm : VM) : VM :=
  {| vm_world := vm_world vm;
     _object_allocator := _object_allocator vm;
     vm_calls := vm_calls vm ++ [(length (trace (vm_world vm)), c)] |}.

Inductive VMOutcome (A : Type) : Type :=
| VMReturned (a : A) (vm : VM)
| VMHalted (msg : string) (vm : VM).

Definition VMM (A : Type) : Type := VM -> VMOutcome A.

Definition vm_ret {A : Type} (a : A) : VMM A := fun vm => VMReturned A a vm.

Definition vm_bind {A B : Type} (m : VMM A) (k : A -> VMM B) : VMM B :=
  fun vm =>
    match m vm with
    | VMReturned _ a vm' => k a vm'
    | VMHalted _ msg vm' => VMHalted B msg vm'
    end.

Definition vm_gets {A : Type} (f : VM -> A) : VMM A :=
  fun vm => VMReturned A (f vm) vm.

Definition vm_modify (f : VM -> VM) : VMM unit :=
  fun vm => VMReturned unit tt (f vm).

Definition vm_call (c : VMCall) : VMM unit := vm_modify (vm_log c).

(** An entry point of the first part, run on the world of the [VM]. *)
Definition lift {A : Type} (m : M A) : VMM A :=
  fun vm =>
    match m (vm_world vm) with
    | Returned a w => VMReturned A a (vm_with_world w vm)
    | Halted msg w => VMHalted A msg (vm_with_world w vm)
    end.

End VMOperations.

Arguments VMReturned {X Y A} a vm.
Arguments VMHalted {X Y A} msg vm.

Declare Scope vm_scope.
Delimit Scope vm_scope with vm.
Notation "x <- m ;; k" := (vm_bind m (fun x => k))
  (at level 20, m at level 99, k at level 200, right associativity) : vm_scope.
Notation "m ;; k" := (vm_bind m (fun _ => k))
  (at level 100, k at level 200, right associativity) : vm_scope.

Section VMEntryPoints.

Context {X : ZCollaborators} {Y : ZVMCollaborators}.

Local Open Scope vm_scope.

(** *** Calls on the members *)

(** [_object_allocator.retire_tlabs()] and [_object_allocator.remap_tlabs()] *)
Definition object_allocator_retire_tlabs : VMM unit :=
  vm_modify (fun vm =>
    vm_log Call_object_allocator_retire_tlabs
      (vm_with_object_allocator
         (ZObjectAllocator_retire_tlabs (_object_allocator vm)) vm)).

Definition object_allocator_remap_tlabs : VMM unit :=
  vm_modify (fun vm =>
    vm_log Call_object_allocator_remap_tlabs
      (vm_with_object_allocator
         (ZObjectAllocator_remap_tlabs (_object_allocator vm)) vm)).

(** [_page_allocator.reset_statistics()] *)
Definition page_allocator_reset_statistics : VMM unit :=
  vm_modify (fun vm =>
    vm_log Call_page_allocator_reset_statistics
      (vm_with_world
         (with_heap (fun h =>
            heap_with_page_allocator
              (ZPageAllocator_reset_statistics (_page_allocator h)) h)
            (vm_world vm)) vm)).

(** [_mark.start()] *)
Definition mark_start_call : VMM unit :=
  vm_modify (fun vm =>
    let w := vm_world vm in
    let r := ZMark_start (_mark (heap w)) (ZGlobalSeqNum (runtime w)) in
    vm_log Call_mark_start
      (vm_with_world
         (with_runtime (rt_with_seqnum (snd r))
            (with_heap (heap_with_mark (fst r)) w)) vm)).

(** [_mark.mark()] *)
Definition mark_mark_call : VMM unit :=
  vm_modify (fun vm =>
    vm_log Call_mark_mark
      (vm_with_world
         (with_heap (fun h => heap_with_mark (ZMark_mark (_mark h)) h)
            (vm_world vm)) vm)).

(** [_relocate.start()] *)
Definition relocate_start_call : VMM unit :=
  vm_modify (fun vm =>
    vm_log Call_relocate_start
      (vm_with_world
         (with_heap (fun h => heap_with_relocate (ZRelocate_start (_relocate h)) h)
            (vm_world vm)) vm)).

Definition soft_max_capacity : VMM Z :=
  vm_gets (fun vm =>
    ZPageAllocator_soft_max_capacity (_page_allocator (heap (vm_world vm)))).

(** [ZPageTableIterator], as [page_table_iterate], for a body that reaches
    the components of the [VM]. *)
Fixpoint vm_page_table_iterate (slots : list Z) (body : ZPage -> VMM unit) (vm : VM)
  : VMOutcome unit :=
  match slots with
  | [] => VMReturned tt vm
  | slot :: rest =>
      match _page_table (heap (vm_world vm)) !! slot with
      | Some page =>
          match body page vm with
          | VMReturned _ vm' => vm_page_table_iterate rest body vm'
          | VMHalted msg vm' => VMHalted msg vm'
          end
      | None => vm_page_table_iterate rest body vm
      end
  end.

(** *** Thread-local allocation buffers *)

Definition tlab_capacity : VMM Z := lift capacity.

Definition tlab_used : VMM Z :=
  vm_gets (fun vm => ZObjectAllocator_used (_object_allocator vm)).

Definition max_tlab_size : VMM Z := vm_ret ZObjectSizeLimitSmall.

Definition unsafe_max_tlab_alloc : VMM Z :=
  size <- vm_gets (fun vm => ZObjectAllocator_remaining (_object_allocator vm)) ;;
  size' <- (if size <? MinTLABSize then max_tlab_size else vm_ret size) ;;
  limit <- max_tlab_size ;;
  vm_ret (if size' <? limit then size' else limit).

(** *** Page allocation *)

Definition out_of_memory : VMM unit :=
  vm_call (Call_ZStatInc ZCounterOutOfMemory) ;;
  vm_call Call_log_info_out_of_memory.

Definition undo_alloc_page (page : ZPage) : VMM unit :=
  lift (assert (is_allocating page) "Invalid page state") ;;
  vm_call (Call_ZStatInc ZCounterUndoPageAllocation) ;;
  vm_call (Call_log_trace_undo_page_allocation page (page_size page)) ;;
  lift (free_page page false).

(** *** Address views *)

Definition flip_to_marked : VMM unit :=
  vm_call Call_ZVerifyViewsFlip_construct ;;
  vm_call Call_ZAddress_flip_to_marked ;;
  vm_call Call_ZVerifyViewsFlip_destruct.

Definition flip_to_remapped : VMM unit :=
  vm_call Call_ZVerifyViewsFlip_construct ;;
  vm_call Call_ZAddress_flip_to_remapped ;;
  vm_call Call_ZVerifyViewsFlip_destruct.

(** *** Marking and relocation *)

Definition mark_start : VMM unit :=
  at_safepoint <- lift SafepointSynchronize_is_at_safepoint ;;
  lift (assert at_safepoint "Should be at safepoint") ;;
  u <- lift used ;;
  lift (call (Call_ZStatSample ZSamplerHeapUsedBeforeMark u)) ;;
  object_allocator_retire_tlabs ;;
  flip_to_marked ;;
  page_allocator_reset_statistics ;;
  vm_call Call_reference_processor_reset_statistics ;;
  lift (set_ZGlobalPhase ZPhaseMark) ;;
  mark_start_call ;;
  s <- soft_max_capacity ;;
  c <- lift capacity ;;
  u' <- lift used ;;
  vm_call (Call_ZStatHeap_set_at_mark_start s c u').

Definition mark : VMM unit := mark_mark_call.

Definition relocate_start : VMM unit :=
  at_safepoint <- lift SafepointSynchronize_is_at_safepoint ;;
  lift (assert at_safepoint "Should be at safepoint") ;;
  u <- lift used ;;
  lift (call (Call_ZStatSample ZSamplerHeapUsedBeforeRelocation u)) ;;
  flip_to_remapped ;;
  object_allocator_remap_tlabs ;;
  lift (set_ZGlobalPhase ZPhaseRelocate) ;;
  c <- lift capacity ;;
  a <- lift allocated ;;
  u' <- lift used ;;
  vm_call (Call_ZStatHeap_set_at_relocate_start c a u') ;;
  relocate_start_call.

(** *** Iteration over the pages *)

Definition pages_do : VMM unit :=
  slots <- lift page_table_slots ;;
  (fun vm => vm_page_table_iterate slots
               (fun page => vm_call (Call_closure_do_page page)) vm) ;;
  vm_call Call_page_allocator_pages_do.

End VMEntryPoints.

(** A VM over the small heap: the object allocator is the space left in
    its current page, [ZMark::start] empties the mark stacks and moves to
    the next sequence number. *)
Module VMScenario.

#[export] Instance collaborators : @ZVMCollaborators Scenario.collaborators := {|
  ZObjectAllocator := Z;
  ZObjectAllocator_used := fun remaining => Scenario.granule - remaining;
  ZObjectAllocator_remaining := fun remaining => remaining;
  ZObjectAllocator_retire_tlabs := fun remaining => remaining;
  ZObjectAllocator_remap_tlabs := fun remaining => remaining;
  ZMark_start := fun _ seqnum => (@nil Z : @ZMark Scenario.collaborators,
                                 (seqnum + 1) mod 2 ^ 32);
  ZMark_mark := fun _ => @nil Z : @ZMark Scenario.collaborators;
  ZRelocate_start := fun r => r;
  ZPageAllocator_reset_statistics := fun pa =>
    {| pa_max_capacity := pa_max_capacity pa;
       pa_capacity := pa_capacity pa;
       pa_used := pa_used pa;
       pa_used_high := pa_used pa;
       pa_used_low := pa_used pa;
       pa_allocated := 0;
       pa_reclaimed := 0;
       pa_deferred_delete := pa_deferred_delete pa |};
  ZPageAllocator_soft_max_capacity := pa_max_capacity;
  MinTLABSize := 2048;
  ZObjectSizeLimitSmall := 262144
|}.

Definition vm0 (phase : ZPhase) (remaining : Z) : VM :=
  {| vm_world := Scenario.world0 phase;
     _object_allocator := remaining;
     vm_calls := [] |}.

(** The same VM while the threads are running, in a debug build. *)
Definition vm_running : VM :=
  {| vm_world :=
       {| runtime :=
            {| ZGlobalPhase := ZPhaseRelocate;
               ZGlobalSeqNum := 1;
               ClassUnloading := true;
               ZUnloadClassesFrequency := 5;
               gc_cause := GCCause._other 0;
               is_at_safepoint := false;
               ASSERT := true;
               ZResurrection_blocked := false |};
          heap := Scenario.heap0;
          trace := [] |};
     _object_allocator := 0;
     vm_calls := [] |}.

(** The small heap when its only page is the one still allocating. *)
Definition world_fresh : World :=
  with_heap
    (heap_with_page_table
       (<[page_start Scenario.fresh_page := Scenario.fresh_page]> ∅))
    (Scenario.world0 ZPhaseMarkCompleted).

End VMScenario.

(** * Properties *)

Section Properties.

Context {X : ZCollaborators}.

Local Open Scope heap_scope.

(** ** Auxiliary facts about the monad and the loops *)

Lemma for_each_modify {A : Type} (step : A -> World -> World) (l : list A) (w : World) :
  for_each l (fun a => modify (step a)) w
  = Returned tt (foldl (fun w a => step a w) w l).
Proof.
  revert w. induction l as [|a l IH]; intros w; simpl; [reflexivity|].
  unfold bind, modify at 1. apply IH.
Qed.

(** A loop whose body only logs a call visits the entries in order. *)
Lemma page_table_iterate_call (ev : ZPage -> Event) (l : list (Z * ZPage)) (w : World) :
  (forall k v, In (k, v) l -> _page_table (heap w) !! k = Some v) ->
  page_table_iterate (fst <$> l) (fun page _ => modify (log (ev page))) tt w
  = Returned tt
      {| runtime := runtime w; heap := heap w;
         trace := trace w ++ (ev <$> (snd <$> l)) |}.
Proof.
  revert w. induction l as [|[k v] l IH]; intros w Hl.
  - simpl. rewrite app_nil_r. destruct w; reflexivity.
  - cbn [fmap list_fmap fst snd page_table_iterate].
    rewrite (Hl k v (or_introl eq_refl)).
    unfold modify at 1. rewrite IH.
    + simpl. rewrite <- app_assoc. reflexivity.
    + intros k' v' Hin. simpl. apply Hl. right. exact Hin.
Qed.

(** The entries of the page table: each entry once, in ascending order of
    address. *)
Lemma page_table_entries_In (pt : gmap Z ZPage) (k : Z) (v : ZPage) :
  In (k, v) (page_table_entries pt) <-> pt !! k = Some v.
Proof.
  unfold page_table_entries.
  rewrite <- list_elem_of_In, merge_sort_Permutation. apply elem_of_map_to_list.
Qed.

Lemma page_table_entries_lookup (pt : gmap Z ZPage) (k : Z) (v : ZPage) :
  In (k, v) (page_table_entries pt) -> pt !! k = Some v.
Proof. apply page_table_entries_In. Qed.

Lemma page_table_entries_NoDup (pt : gmap Z ZPage) :
  NoDup (fst <$> page_table_entries pt).
Proof.
  unfold page_table_entries. rewrite merge_sort_Permutation.
  apply NoDup_fst_map_to_list.
Qed.

Lemma page_table_entries_ascending (pt : gmap Z ZPage) :
  StronglySorted Z.lt (fst <$> page_table_entries pt).
Proof.
  assert (Hle : StronglySorted Z.le (fst <$> page_table_entries pt)).
  { unfold page_table_entries.
    assert (Htrans : Transitive slot_le)
      by (unfold slot_le; intros a b c; lia).
    assert (Htotal : Total slot_le)
      by (unfold slot_le; intros a b; lia).
    pose proof (StronglySorted_merge_sort slot_le (map_to_list pt)) as Hs.
    induction Hs as [|a l Hs IH Hall]; simpl; constructor; [exact IH|].
    apply Forall_fmap. exact Hall. }
  pose proof (page_table_entries_NoDup pt) as Hnd.
  induction Hle as [|a l Hle IH Hall]; [constructor|].
  apply NoDup_cons in Hnd. destruct Hnd as [Hout Hnd].
  constructor; [apply IH; exact Hnd|].
  rewrite Forall_forall in *. intros b Hb.
  specialize (Hall b Hb). assert (a <> b) by (intros ->; contradiction). lia.
Qed.

Lemma app_cons2 {A : Type} (l : list A) (a b : A) : (l ++ [a]) ++ [b] = l ++ [a; b].
Proof. rewrite <- app_assoc. reflexivity. Qed.

(** ** Page allocation *)

(** C8.  [alloc_page] returns what the page allocator returned.  When that
    is a page, the page is inserted into the page table, right after the
    allocation; when it is NULL, nothing is inserted and the page table is
    as it was.  [free_page] removes the entry of the page from the page
    table first and hands the page to the page allocator second. *)
Theorem alloc_page_free_page_page_table
  (type size flags : Z) (page : ZPage) (reclaimed : bool) (w : World) :
  let r := ZPageAllocator_alloc_page type size flags (_page_allocator (heap w)) in
  (exists w',
     alloc_page type size flags w = Returned (fst r) w' /\
     match fst r with
     | Some p =>
         _page_table (heap w') = <[page_start p := p]> (_page_table (heap w)) /\
         trace w' = trace w ++ [Call_page_allocator_alloc_page type size flags (Some p);
                                Call_page_table_insert p]
     | None =>
         _page_table (heap w') = _page_table (heap w) /\
         trace w' = trace w ++ [Call_page_allocator_alloc_page type size flags None]
     end) /\
  (exists w',
     free_page page reclaimed w = Returned tt w' /\
     _page_table (heap w') = delete (page_start page) (_page_table (heap w)) /\
     trace w' = trace w ++ [Call_page_table_remove page;
                            Call_page_allocator_free_page page reclaimed]).
Proof.
  intros r. split.
  - unfold alloc_page, bind, page_allocator_alloc_page. fold r.
    destruct (fst r) as [p|] eqn:Hr; simpl.
    + eexists. split; [reflexivity|]. simpl. split; [reflexivity|].
      apply app_cons2.
    + eexists. split; [reflexivity|]. simpl. split; reflexivity.
  - unfold free_page, bind. simpl. eexists. split; [reflexivity|]. simpl.
    split; [reflexivity|]. apply app_cons2.
Qed.

(** [alloc_page] and [free_page] keep every page under its start address
    in the page table. *)
Lemma alloc_page_wf (type size flags : Z) (w w' : World) (r : option ZPage) :
  page_table_wf (_page_table (heap w)) ->
  alloc_page type size flags w = Returned r w' ->
  page_table_wf (_page_table (heap w')).
Proof.
  intros Hwf Hrun. unfold alloc_page, bind, page_allocator_alloc_page in Hrun.
  destruct (fst (ZPageAllocator_alloc_page type size flags (_page_allocator (heap w))))
    as [p|]; simpl in Hrun; injection Hrun as _ <-; simpl; [|exact Hwf].
  apply map_Forall_insert_2; [reflexivity|exact Hwf].
Qed.

Lemma free_page_wf (page : ZPage) (reclaimed : bool) (w w' : World) :
  page_table_wf (_page_table (heap w)) ->
  free_page page reclaimed w = Returned tt w' ->
  page_table_wf (_page_table (heap w')).
Proof.
  intros Hwf Hrun. unfold free_page, bind in Hrun. simpl in Hrun.
  injection Hrun as <-. simpl. apply map_Forall_delete. exact Hwf.
Qed.

(** ** Marking *)

(** C2.  Outside a failed safepoint assertion, [mark_end] returns what
    [ZMark::end] reported.  When that is false the heap has done nothing
    else: the globals (the phase among them, and the resurrection block),
    the page allocator, both tables, the relocation engine and the
    relocation set are as before, and the only call made is the one to
    [ZMark::end].  When it is true the phase is MarkCompleted and
    resurrection is blocked, weak roots have been processed, and unloading
    has been prepared and not run. *)
Theorem mark_end_returns_termination (w : World) :
  (ASSERT (runtime w) = true -> is_at_safepoint (runtime w) = true) ->
  let r := ZMark_end (_mark (heap w)) in
  exists w' calls,
    mark_end w = Returned (fst r) w' /\
    trace w' = trace w ++ Call_mark_end (fst r) :: calls /\
    _mark (heap w') = snd r /\
    _page_allocator (heap w') = _page_allocator (heap w) /\
    _page_table (heap w') = _page_table (heap w) /\
    _forwarding_table (heap w') = _forwarding_table (heap w) /\
    _relocate (heap w') = _relocate (heap w) /\
    _relocation_set (heap w') = _relocation_set (heap w) /\
    if fst r then
      ZGlobalPhase (runtime w') = ZPhaseMarkCompleted /\
      ZResurrection_blocked (runtime w') = true /\
      calls = [Call_MetaspaceGC_compute_new_size;
               Call_ZStatSample ZSamplerHeapUsedAfterMark
                 (pa_used (_page_allocator (heap w)));
               Call_ZStatHeap_set_at_mark_end
                 (pa_capacity (_page_allocator (heap w)))
                 (pa_allocated (_page_allocator (heap w)))
                 (pa_used (_page_allocator (heap w)));
               Call_ZResurrection_block;
               Call_weak_roots_processor_process_weak_roots;
               Call_unload_prepare] /\
      ~ In Call_unload_unload calls
    else
      runtime w' = runtime w /\ calls = [].
Proof.
  intros Hsafe r.
  assert (Hassert : assert (is_at_safepoint (runtime w)) "Should be at safepoint" w
                    = Returned tt w).
  { unfold assert, guarantee. destruct (ASSERT (runtime w)); [|reflexivity].
    rewrite Hsafe; reflexivity. }
  unfold mark_end, bind, SafepointSynchronize_is_at_safepoint, gets.
  rewrite Hassert. unfold mark_end_call. fold r.
  destruct (fst r) eqn:Hr; simpl.
  - eexists. eexists. split; [reflexivity|]. simpl.
    split; [rewrite <- !app_assoc; reflexivity|].
    repeat (split; [reflexivity|]).
    simpl. intros H. repeat (destruct H as [H|H]; [discriminate H|]). exact H.
  - eexists. exists []. split; [reflexivity|]. simpl.
    repeat (split; [reflexivity|]). reflexivity.
Qed.

(** ** Non-strong references *)

(** C5.  When [should_unload_class] holds, [process_non_strong_references]
    processes the references and the concurrent weak roots and returns:
    resurrection is not unblocked and nothing is enqueued; it is
    [finish_non_strong_references] that unblocks resurrection and then
    enqueues the references.  When [should_unload_class] does not hold,
    [process_non_strong_references] goes on to unblock and enqueue itself,
    and [finish_non_strong_references] halts on its [guarantee]. *)
Theorem non_strong_references_split (w : World) :
  (should_unload_class (runtime w) = true ->
   (exists w',
      process_non_strong_references w = Returned tt w' /\
      trace w' = trace w ++
        [Call_reference_processor_process_references;
         Call_weak_roots_processor_process_concurrent_weak_roots] /\
      runtime w' = runtime w) /\
   (exists w',
      finish_non_strong_references w = Returned tt w' /\
      trace w' = trace w ++
        [Call_ZResurrection_unblock;
         Call_reference_processor_enqueue_references] /\
      ZResurrection_blocked (runtime w') = false)) /\
  (should_unload_class (runtime w) = false ->
   (exists w',
      process_non_strong_references w = Returned tt w' /\
      trace w' = trace w ++
        [Call_reference_processor_process_references;
         Call_weak_roots_processor_process_concurrent_weak_roots;
         Call_ZResurrection_unblock;
         Call_reference_processor_enqueue_references] /\
      ZResurrection_blocked (runtime w') = false) /\
   finish_non_strong_references w = Halted "sanity" w).
Proof.
  split; intros Hu.
  - split.
    + unfold process_non_strong_references, bind, gets. simpl. rewrite Hu.
      eexists. split; [reflexivity|]. simpl. split; [|reflexivity].
      apply app_cons2.
    + unfold finish_non_strong_references, bind, gets. rewrite Hu. simpl.
      eexists. split; [reflexivity|]. simpl. split; [|reflexivity].
      apply app_cons2.
  - split.
    + unfold process_non_strong_references, bind, gets. simpl. rewrite Hu. simpl.
      eexists. split; [reflexivity|]. simpl. split; [|reflexivity].
      rewrite <- !app_assoc. reflexivity.
    + unfold finish_non_strong_references, bind, gets. rewrite Hu. reflexivity.
Qed.

(** ** Relocation *)

(** C6, as amended.  [relocate] returns nothing to its caller.  It runs
    the relocation engine on the relocation set and hands the engine's
    success flag to [ZStatRelocation::set_at_relocate_end]; the heap usage
    sample and the end-of-relocation statistics are recorded whether the
    engine succeeded or not. *)
Theorem relocate_records_success (w : World) :
  let set := _relocation_set (heap w) in
  let pa := _page_allocator (heap w) in
  let success := fst (ZRelocate_relocate (_relocate (heap w)) set) in
  exists w',
    relocate w = Returned tt w' /\
    trace w' = trace w ++
      [Call_relocate_relocate set success;
       Call_ZStatSample ZSamplerHeapUsedAfterRelocation (pa_used pa);
       Call_ZStatRelocation_set_at_relocate_end success;
       Call_ZStatHeap_set_at_relocate_end
         (pa_capacity pa) (pa_allocated pa) (pa_reclaimed pa)
         (pa_used pa) (pa_used_high pa) (pa_used_low pa)].
Proof.
  intros set pa success. unfold relocate, bind, relocate_relocate. simpl.
  eexists. split; [reflexivity|]. simpl.
  rewrite <- !app_assoc. reflexivity.
Qed.

(** ** Printing and verification *)

(** C10.  [print_extended_on] calls [enable_deferred_delete] before the
    loop over the pages and again after it, and never calls
    [disable_deferred_delete]: on return the deferred-delete mode of the
    page allocator is on, two levels deeper than on entry. *)
Theorem print_extended_on_leaves_deferred_delete_enabled (w : World) :
  let pa := _page_allocator (heap w) in
  exists w' calls,
    print_extended_on w = Returned tt w' /\
    trace w' = trace w ++ calls /\
    calls =
      [Call_print_cr_heap (pa_used pa / M_bytes) (pa_capacity pa / M_bytes)
         (pa_max_capacity pa / M_bytes);
       Call_MetaspaceUtils_print_on;
       Call_st_cr;
       Call_page_allocator_enable_deferred_delete]
      ++ (Call_page_print_on <$> (snd <$> page_table_entries (_page_table (heap w))))
      ++ [Call_page_allocator_enable_deferred_delete; Call_st_cr] /\
    ~ In Call_page_allocator_disable_deferred_delete calls /\
    pa_deferred_delete (_page_allocator (heap w')) = S (S (pa_deferred_delete pa)) /\
    deferred_delete_enabled (_page_allocator (heap w')) = true.
Proof.
  intros pa.
  unfold print_extended_on, print_on, bind, page_table_slots, call. simpl.
  rewrite page_table_iterate_call
    by (intros k v Hin; simpl; apply page_table_entries_lookup; exact Hin).
  simpl.
  eexists. eexists. split; [reflexivity|]. simpl.
  split; [|split; [reflexivity|split; [|split; reflexivity]]].
  - rewrite <- !app_assoc. reflexivity.
  - simpl. intros [H|[H|[H|[H|H]]]]; try discriminate H.
    apply in_app_or in H. destruct H as [H|H].
    + apply in_map_iff in H. destruct H as (? & H & _). discriminate H.
    + simpl in H. destruct H as [H|[H|[]]]; discriminate H.
Qed.

(** C9.  [verify] returns only when the phase is MarkCompleted.  In every
    other phase it halts on its [guarantee] with the world untouched: no
    root and no object has been visited.  In the MarkCompleted phase (and
    at a safepoint, which [object_iterate] asserts) it visits the roots and
    then the objects. *)
Theorem verify_requires_mark_completed (w : World) :
  (forall w', verify w = Returned tt w' ->
     ZGlobalPhase (runtime w) = ZPhaseMarkCompleted) /\
  (ZGlobalPhase (runtime w) <> ZPhaseMarkCompleted ->
     verify w = Halted "Invalid phase" w) /\
  (ZGlobalPhase (runtime w) = ZPhaseMarkCompleted ->
   (ASSERT (runtime w) = true -> is_at_safepoint (runtime w) = true) ->
   exists w',
     verify w = Returned tt w' /\
     trace w' = trace w ++ [Call_workers_run_parallel_ZVerifyRootsTask;
                            Call_heap_iterator_objects_do false]).
Proof.
  unfold verify, bind, gets.
  split; [|split].
  - intros w'. destruct (ZGlobalPhase (runtime w)); simpl; intros H;
      first [discriminate H | reflexivity].
  - intros Hne. destruct (ZGlobalPhase (runtime w)); simpl;
      first [reflexivity | contradiction].
  - intros Hph Hsafe. rewrite Hph. simpl.
    unfold object_iterate, bind, SafepointSynchronize_is_at_safepoint, gets,
      assert, guarantee. simpl.
    destruct (ASSERT (runtime w)).
    + rewrite Hsafe by reflexivity. simpl.
      eexists. split; [reflexivity|]. simpl. apply app_cons2.
    + simpl. eexists. split; [reflexivity|]. simpl. apply app_cons2.
Qed.

(** ** Class unloading *)

Lemma should_unload_class_by_frequency (r : Runtime) (k : Z) :
  ClassUnloading r = true ->
  cause_implies_unloading (gc_cause r) = false ->
  0 < ZUnloadClassesFrequency r ->
  1 <= k < 2 ^ 32 ->
  should_unload_class (rt_with_seqnum k r) = true
  <-> (k - 1) mod ZUnloadClassesFrequency r = 0.
Proof.
  intros Hcu Hcause Hfreq Hk. unfold should_unload_class. simpl.
  rewrite Hcu, Hcause. simpl.
  rewrite (Z.mod_small (k - 1) (2 ^ 32)) by lia.
  destruct (Z.eqb_spec (ZUnloadClassesFrequency r) 0) as [E|E]; [lia|]. simpl.
  apply Z.eqb_eq.
Qed.

Lemma one_multiple_per_window (n s : Z) :
  0 < n ->
  exists! k, s <= k < s + n /\ (k - 1) mod n = 0.
Proof.
  intros Hn. exists (s + (1 - s) mod n). split.
  - pose proof (Z.mod_pos_bound (1 - s) n Hn) as Hb. split; [lia|].
    replace (s + (1 - s) mod n - 1) with ((s - 1) + (1 - s) mod n) by lia.
    rewrite Z.add_mod_idemp_r by lia.
    replace (s - 1 + (1 - s)) with 0 by lia. apply Z.mod_0_l. lia.
  - intros k [Hk Hmod].
    pose proof (Z.mod_pos_bound (1 - s) n Hn) as Hb.
    assert (Hd1 : (n | k - 1)) by (apply Z.mod_divide; [lia|exact Hmod]).
    assert (Hd2 : (n | s + (1 - s) mod n - 1)).
    { apply Z.mod_divide; [lia|].
      replace (s + (1 - s) mod n - 1) with ((s - 1) + (1 - s) mod n) by lia.
      rewrite Z.add_mod_idemp_r by lia.
      replace (s - 1 + (1 - s)) with 0 by lia. apply Z.mod_0_l. lia. }
    destruct Hd1 as [a Ha]. destruct Hd2 as [b Hb2].
    assert (a = b) by nia. subst a. lia.
Qed.

(** C4, as amended.  With [ClassUnloading] off, [should_unload_class] is
    false whatever the cause.  With [ClassUnloading] on, it is true for
    each of the causes of the fixed set; for any other cause it is false
    when the frequency is 0, and for a frequency N > 0 it is true exactly
    in the cycles whose sequence number minus one is a multiple of N, which
    is exactly one cycle out of every N consecutive ones. *)
Theorem should_unload_class_gated (r : Runtime) :
  (ClassUnloading r = false -> should_unload_class r = false) /\
  (ClassUnloading r = true ->
   (cause_implies_unloading (gc_cause r) = true -> should_unload_class r = true) /\
   (cause_implies_unloading (gc_cause r) = false ->
    (ZUnloadClassesFrequency r = 0 ->
     forall k, should_unload_class (rt_with_seqnum k r) = false) /\
    (0 < ZUnloadClassesFrequency r ->
     (forall k, 1 <= k < 2 ^ 32 ->
        should_unload_class (rt_with_seqnum k r) = true
        <-> (k - 1) mod ZUnloadClassesFrequency r = 0) /\
     (forall s, 1 <= s -> s + ZUnloadClassesFrequency r <= 2 ^ 32 ->
        exists! k,
          s <= k < s + ZUnloadClassesFrequency r /\
          should_unload_class (rt_with_seqnum k r) = true)))).
Proof.
  split; [|intros Hon; split; [|intros Hother; split]].
  - intros Hcu. unfold should_unload_class. rewrite Hcu. reflexivity.
  - intros Hcause. unfold should_unload_class. rewrite Hon, Hcause. reflexivity.
  - intros Hz k. unfold should_unload_class. simpl.
    rewrite Hon, Hother, Hz. reflexivity.
  - intros Hfreq. split.
    + intros k Hk. apply should_unload_class_by_frequency; assumption.
    + intros s Hs Hwin.
      destruct (one_multiple_per_window (ZUnloadClassesFrequency r) s Hfreq)
        as (k & [Hk Hmod] & Huniq).
      exists k. split.
      * split; [exact Hk|].
        apply should_unload_class_by_frequency; try assumption. lia.
      * intros k' [Hk' Hu]. apply Huniq. split; [exact Hk'|].
        apply (should_unload_class_by_frequency r k'); try assumption. lia.
Qed.

(** ** The loops of [select_relocation_set] and [reset_relocation_set] *)

Lemma foldl_forwarding_table
  (ev : ZForwarding -> Event)
  (g : ZForwarding -> gmap Z ZForwarding -> gmap Z ZForwarding)
  (fs : list ZForwarding) (w : World) :
  foldl (fun w f =>
           log (ev f)
             (with_heap (fun h => heap_with_forwarding_table (g f (_forwarding_table h)) h) w))
        w fs
  = {| runtime := runtime w;
       heap := heap_with_forwarding_table
                 (foldl (fun ft f => g f ft) (_forwarding_table (heap w)) fs) (heap w);
       trace := trace w ++ (ev <$> fs) |}.
Proof.
  revert w. induction fs as [|f fs IH]; intros w; simpl.
  - rewrite app_nil_r. destruct w as [r h t]. destruct h; reflexivity.
  - rewrite IH. simpl. rewrite <- app_assoc. reflexivity.
Qed.

Lemma registered_cons (page : ZPage) (pages : list ZPage) (s : ZRelocationSetSelector) :
  registered (page :: pages) s = registered pages (registered [page] s).
Proof.
  unfold registered. simpl.
  destruct (is_live page), (is_garbage page); simpl;
    rewrite <- ?app_assoc, ?app_nil_r; reflexivity.
Qed.

Lemma remove_garbage_cons (page : ZPage) (pages : list ZPage) (pt : gmap Z ZPage) :
  remove_pages (List.filter is_garbage (page :: pages)) pt
  = remove_pages (List.filter is_garbage pages)
      (if is_garbage page then delete (page_start page) pt else pt).
Proof. simpl. destruct (is_garbage page); reflexivity. Qed.

(** One turn of the loop of [select_relocation_set]. *)
Lemma register_page_spec (page : ZPage) (s : ZRelocationSetSelector) (w : World) :
  exists w1,
    register_page page s w = Returned (registered [page] s) w1 /\
    runtime w1 = runtime w /\
    _page_table (heap w1)
      = (if is_garbage page then delete (page_start page) (_page_table (heap w))
         else _page_table (heap w)) /\
    _forwarding_table (heap w1) = _forwarding_table (heap w) /\
    _mark (heap w1) = _mark (heap w) /\
    _relocate (heap w1) = _relocate (heap w) /\
    _relocation_set (heap w1) = _relocation_set (heap w) /\
    trace w1 = trace w ++ register_calls page.
Proof.
  unfold register_page, registered, register_calls. cbn [List.filter].
  unfold is_live, is_garbage.
  destruct (is_relocatable page); simpl.
  - destruct (is_marked page); simpl; rewrite app_nil_r.
    + eexists. split; [reflexivity|]. simpl. repeat split.
    + eexists. split; [reflexivity|]. simpl. repeat split.
      rewrite <- !app_assoc. reflexivity.
  - exists w. rewrite !app_nil_r. destruct s. repeat split.
Qed.

(** The loop never halts and never touches the globals of the runtime. *)
Lemma register_pages_frame (slots : list Z) (s : ZRelocationSetSelector) (w : World) :
  exists s1 w1,
    page_table_iterate slots register_page s w = Returned s1 w1 /\
    runtime w1 = runtime w.
Proof.
  revert s w. induction slots as [|slot rest IH]; intros s w; simpl.
  - exists s, w. split; reflexivity.
  - destruct (_page_table (heap w) !! slot) as [page|]; [|apply IH].
    destruct (register_page_spec page s w) as (w1 & Hrun & Hrt & _).
    rewrite Hrun.
    destruct (IH (registered [page] s) w1) as (s2 & w2 & Hrun2 & Hrt2).
    exists s2, w2. split; [exact Hrun2|]. rewrite Hrt2. exact Hrt.
Qed.

(** The loop over the entries [l] of a page table keyed by page start:
    every entry is still in its slot when the iterator gets there. *)
Lemma register_pages_spec (l : list (Z * ZPage)) (s : ZRelocationSetSelector) (w : World) :
  NoDup (fst <$> l) ->
  (forall k v, In (k, v) l ->
     _page_table (heap w) !! k = Some v /\ page_start v = k) ->
  exists w1,
    page_table_iterate (fst <$> l) register_page s w
      = Returned (registered (snd <$> l) s) w1 /\
    runtime w1 = runtime w /\
    _page_table (heap w1)
      = remove_pages (List.filter is_garbage (snd <$> l)) (_page_table (heap w)) /\
    _forwarding_table (heap w1) = _forwarding_table (heap w) /\
    _mark (heap w1) = _mark (heap w) /\
    _relocate (heap w1) = _relocate (heap w) /\
    _relocation_set (heap w1) = _relocation_set (heap w) /\
    trace w1 = trace w ++ flat_map register_calls (snd <$> l).
Proof.
  revert s w. induction l as [|[k v] l IH]; intros s w Hnd Hl.
  - exists w. simpl. unfold registered. simpl. rewrite !app_nil_r.
    destruct s. repeat split.
  - simpl in Hnd. apply NoDup_cons in Hnd. destruct Hnd as [Hk Hnd].
    destruct (Hl k v (or_introl eq_refl)) as [Hlook Hstart].
    cbn [fmap list_fmap fst snd page_table_iterate]. rewrite Hlook.
    destruct (register_page_spec v s w)
      as (w1 & Hrun & Hrt & Hpt & Hft & Hm & Hr & Hrs & Htr).
    rewrite Hrun.
    destruct (IH (registered [v] s) w1 Hnd)
      as (w2 & Hrun2 & Hrt2 & Hpt2 & Hft2 & Hm2 & Hr2 & Hrs2 & Htr2).
    { intros k' v' Hin. destruct (Hl k' v' (or_intror Hin)) as [Hlook' Hstart'].
      split; [|exact Hstart'].
      rewrite Hpt. destruct (is_garbage v); [|exact Hlook'].
      rewrite lookup_delete_ne; [exact Hlook'|].
      rewrite Hstart. intros ->. apply Hk.
      apply list_elem_of_In, in_map_iff.
      exists (k', v'). split; [reflexivity|exact Hin]. }
    exists w2.
    rewrite Hrun2, (registered_cons v (snd <$> l) s),
      (remove_garbage_cons v (snd <$> l)).
    split; [reflexivity|].
    split; [congruence|]. split; [rewrite Hpt2, Hpt; reflexivity|].
    split; [congruence|]. split; [congruence|]. split; [congruence|].
    split; [congruence|].
    rewrite Htr2, Htr. simpl. rewrite <- app_assoc. reflexivity.
Qed.

Lemma foldl_delete_None {A B : Type} (key : B -> Z) (l : list B) (m : gmap Z A) (k : Z) :
  m !! k = None -> foldl (fun m b => delete (key b) m) m l !! k = None.
Proof.
  revert m. induction l as [|b l IH]; intros m Hm; simpl; [exact Hm|].
  apply IH. rewrite lookup_delete_None. right. exact Hm.
Qed.

Lemma foldl_delete_In {A B : Type} (key : B -> Z) (l : list B) (m : gmap Z A) (b : B) :
  In b l -> foldl (fun m b => delete (key b) m) m l !! key b = None.
Proof.
  revert m. induction l as [|b' l IH]; intros m Hin; simpl; [contradiction|].
  destruct Hin as [->|Hin].
  - apply foldl_delete_None. apply lookup_delete_eq.
  - apply IH. exact Hin.
Qed.

Lemma insert_forwardings_lookup (fs : list ZForwarding) (ft : gmap Z ZForwarding)
  (f : ZForwarding) :
  (forall f1 f2, In f1 fs -> In f2 fs ->
     forwarding_start f1 = forwarding_start f2 -> f1 = f2) ->
  In f fs ->
  insert_forwardings fs ft !! forwarding_start f = Some f.
Proof.
  unfold insert_forwardings.
  induction fs as [|g fs IH] using rev_ind; intros Hinj Hin; [contradiction|].
  rewrite foldl_app. simpl.
  destruct (decide (forwarding_start g = forwarding_start f)) as [E|E].
  - assert (g = f) as ->.
    { apply Hinj; [apply in_or_app; right; left; reflexivity|exact Hin|exact E]. }
    apply lookup_insert_eq.
  - rewrite lookup_insert_ne by exact E.
    apply in_app_or in Hin. destruct Hin as [Hin|[->|[]]]; [|contradiction].
    apply IH; [|exact Hin].
    intros f1 f2 H1 H2. apply Hinj; apply in_or_app; left; assumption.
Qed.

Lemma for_each_forwarding_table_insert (fs : list ZForwarding) (w : World) :
  for_each fs forwarding_table_insert w
  = Returned tt
      {| runtime := runtime w;
         heap := heap_with_forwarding_table
                   (insert_forwardings fs (_forwarding_table (heap w))) (heap w);
         trace := trace w ++ (Call_forwarding_table_insert <$> fs) |}.
Proof.
  unfold forwarding_table_insert. rewrite for_each_modify.
  f_equal.
  apply (foldl_forwarding_table Call_forwarding_table_insert
           (fun f ft => <[forwarding_start f := f]> ft)).
Qed.

Lemma for_each_forwarding_table_remove (fs : list ZForwarding) (w : World) :
  for_each fs forwarding_table_remove w
  = Returned tt
      {| runtime := runtime w;
         heap := heap_with_forwarding_table
                   (remove_forwardings fs (_forwarding_table (heap w))) (heap w);
         trace := trace w ++ (Call_forwarding_table_remove <$> fs) |}.
Proof.
  unfold forwarding_table_remove. rewrite for_each_modify.
  f_equal.
  apply (foldl_forwarding_table Call_forwarding_table_remove
           (fun f ft => delete (forwarding_start f) ft)).
Qed.

(** The pages the iterator yields are the entries of the page table. *)
Lemma page_table_pages_In (pt : gmap Z ZPage) (p : ZPage) :
  In p (snd <$> page_table_entries pt) <-> exists k, pt !! k = Some p.
Proof.
  rewrite <- list_elem_of_In, list_elem_of_fmap. split.
  - intros ([k q] & -> & Hin). exists k.
    apply page_table_entries_In, list_elem_of_In. exact Hin.
  - intros (k & Hk). exists (k, p). split; [reflexivity|].
    apply list_elem_of_In, page_table_entries_In. exact Hk.
Qed.

Lemma register_calls_of_garbage (pages : list ZPage) (p : ZPage) :
  In p pages -> is_garbage p = true ->
  exists b1 b2,
    flat_map register_calls pages
    = b1 ++ Call_selector_register_garbage_page p
         :: Call_page_table_remove p
         :: Call_page_allocator_free_page p true :: b2.
Proof.
  intros Hin Hg. apply in_split in Hin. destruct Hin as (l1 & l2 & ->).
  exists (flat_map register_calls l1), (flat_map register_calls l2).
  rewrite flat_map_app. simpl. f_equal.
  unfold is_garbage in Hg. apply andb_true_iff in Hg. destruct Hg as [Hrel Hm].
  apply negb_true_iff in Hm. unfold register_calls. rewrite Hrel, Hm. reflexivity.
Qed.

Lemma register_calls_kinds (pages : list ZPage) (e : Event) :
  In e (flat_map register_calls pages) ->
  exists p, In p pages /\
    (e = Call_selector_register_live_page p \/
     e = Call_selector_register_garbage_page p \/
     e = Call_page_table_remove p \/
     e = Call_page_allocator_free_page p true).
Proof.
  intros H. apply in_flat_map in H. destruct H as (p & Hp & He).
  exists p. split; [exact Hp|].
  unfold register_calls in He.
  destruct (is_relocatable p); simpl in He; [|contradiction].
  destruct (is_marked p); simpl in He; intuition.
Qed.

(** [select_relocation_set] from the end of its loop on: [w1] and [s1] are
    the world and the selector the loop leaves. *)
Lemma select_relocation_set_after_loop (w w1 : World) (s1 : ZRelocationSetSelector) :
  page_table_iterate (fst <$> page_table_entries (_page_table (heap w))) register_page
    ZRelocationSetSelector_new
    (log Call_page_allocator_enable_deferred_delete
       (with_heap (fun h =>
          heap_with_page_allocator
            (ZPageAllocator_enable_deferred_delete (_page_allocator h)) h) w))
  = Returned s1 w1 ->
  select_relocation_set w = Returned tt (after_selection s1 w1).
Proof.
  intros Hloop.
  unfold select_relocation_set.
  unfold bind at 1. unfold page_allocator_enable_deferred_delete, modify.
  unfold bind at 1. unfold page_table_slots, gets. simpl heap. simpl _page_table.
  unfold bind at 1. rewrite Hloop.
  unfold bind at 1. unfold page_allocator_disable_deferred_delete, modify.
  unfold bind at 1. unfold selector_select, modify.
  unfold bind at 1. unfold relocation_set_iterator, gets. simpl heap.
  simpl _relocation_set.
  unfold bind at 1. rewrite for_each_forwarding_table_insert.
  unfold bind, call, modify, reclaimed, gets, after_selection, log. simpl.
  rewrite <- ?app_assoc. simpl. rewrite <- ?app_assoc. reflexivity.
Qed.

(** [select_relocation_set] never halts and leaves the globals alone. *)
Lemma select_relocation_set_frame (w : World) :
  exists w', select_relocation_set w = Returned tt w' /\ runtime w' = runtime w.
Proof.
  destruct (register_pages_frame (fst <$> page_table_entries (_page_table (heap w)))
              ZRelocationSetSelector_new
              (log Call_page_allocator_enable_deferred_delete
                 (with_heap (fun h =>
                    heap_with_page_allocator
                      (ZPageAllocator_enable_deferred_delete (_page_allocator h)) h) w)))
    as (s1 & w1 & Hloop & Hrt).
  rewrite (select_relocation_set_after_loop w w1 s1 Hloop).
  eexists. split; [reflexivity|]. exact Hrt.
Qed.

(** The globals of the runtime are not read: changing them changes
    nothing else in what [select_relocation_set] does. *)
Lemma register_pages_runtime (f : Runtime -> Runtime) (slots : list Z)
  (s : ZRelocationSetSelector) (w : World) :
  page_table_iterate slots register_page s (with_runtime f w)
  = outcome_with_runtime f (page_table_iterate slots register_page s w).
Proof.
  revert s w. induction slots as [|slot rest IH]; intros s w; simpl; [reflexivity|].
  destruct (_page_table (heap w) !! slot) as [page|]; [|apply IH].
  assert (Hpage : register_page page s (with_runtime f w)
                  = outcome_with_runtime f (register_page page s w)).
  { unfold register_page. destruct (is_relocatable page); simpl; [|reflexivity].
    destruct (is_marked page); reflexivity. }
  rewrite Hpage.
  destruct (register_page page s w) as [s1 w1|msg w1]; simpl; [apply IH|reflexivity].
Qed.

Lemma select_relocation_set_runtime (f : Runtime -> Runtime) (w : World) :
  select_relocation_set (with_runtime f w)
  = outcome_with_runtime f (select_relocation_set w).
Proof.
  destruct (register_pages_frame (fst <$> page_table_entries (_page_table (heap w)))
              ZRelocationSetSelector_new
              (log Call_page_allocator_enable_deferred_delete
                 (with_heap (fun h =>
                    heap_with_page_allocator
                      (ZPageAllocator_enable_deferred_delete (_page_allocator h)) h) w)))
    as (s1 & w1 & Hloop & _).
  rewrite (select_relocation_set_after_loop w w1 s1 Hloop).
  rewrite (select_relocation_set_after_loop (with_runtime f w) (with_runtime f w1) s1).
  - reflexivity.
  - pose proof (register_pages_runtime f
                  (fst <$> page_table_entries (_page_table (heap w)))
                  ZRelocationSetSelector_new
                  (log Call_page_allocator_enable_deferred_delete
                     (with_heap (fun h =>
                        heap_with_page_allocator
                          (ZPageAllocator_enable_deferred_delete (_page_allocator h)) h) w)))
      as Hf.
    rewrite Hloop in Hf. exact Hf.
Qed.

(** What [select_relocation_set] does on a page table keyed by page
    start, in full. *)
Lemma select_relocation_set_spec (w : World) :
  page_table_wf (_page_table (heap w)) ->
  let pages := snd <$> page_table_entries (_page_table (heap w)) in
  let selector := registered pages ZRelocationSetSelector_new in
  let selected := ZRelocationSetSelector_select selector in
  exists w',
    select_relocation_set w = Returned tt w' /\
    runtime w' = runtime w /\
    _page_table (heap w')
      = remove_pages (List.filter is_garbage pages) (_page_table (heap w)) /\
    _relocation_set (heap w') = ZForwarding_create <$> selected /\
    _forwarding_table (heap w')
      = insert_forwardings (ZForwarding_create <$> selected) (_forwarding_table (heap w)) /\
    trace w'
      = trace w
        ++ (Call_page_allocator_enable_deferred_delete
              :: flat_map register_calls pages
              ++ [Call_page_allocator_disable_deferred_delete])
        ++ Call_selector_select selected
        :: (Call_forwarding_table_insert <$> (ZForwarding_create <$> selected))
        ++ [Call_ZStatRelocation_set_at_select_relocation_set selector;
            Call_ZStatHeap_set_at_select_relocation_set selector
              (pa_reclaimed (_page_allocator (heap w')))].
Proof.
  intros Hwf pages selector selected.
  destruct (register_pages_spec (page_table_entries (_page_table (heap w)))
              ZRelocationSetSelector_new
              (log Call_page_allocator_enable_deferred_delete
                 (with_heap (fun h =>
                    heap_with_page_allocator
                      (ZPageAllocator_enable_deferred_delete (_page_allocator h)) h) w)))
    as (w1 & Hloop & Hrt & Hpt & Hft & _ & _ & _ & Htr).
  { apply page_table_entries_NoDup. }
  { intros k v Hin. apply page_table_entries_lookup in Hin. simpl. split; [exact Hin|].
    exact (map_Forall_lookup_1 _ _ _ _ Hwf Hin). }
  fold pages selector in Hloop, Hpt, Htr.
  rewrite (select_relocation_set_after_loop w w1 selector Hloop).
  eexists. split; [reflexivity|]. unfold after_selection. simpl.
  fold selected.
  split; [exact Hrt|]. split; [exact Hpt|]. split; [reflexivity|].
  split; [rewrite Hft; reflexivity|].
  rewrite Htr. simpl. rewrite <- ?app_assoc. simpl. rewrite <- ?app_assoc.
  reflexivity.
Qed.

(** What [reset_relocation_set] does, in full. *)
Lemma reset_relocation_set_spec (w : World) :
  reset_relocation_set w
  = Returned tt
      {| runtime := runtime w;
         heap := heap_with_relocation_set []
                   (heap_with_forwarding_table
                      (remove_forwardings (_relocation_set (heap w))
                         (_forwarding_table (heap w)))
                      (heap w));
         trace := trace w
                  ++ (Call_forwarding_table_remove <$> _relocation_set (heap w))
                  ++ [Call_relocation_set_reset] |}.
Proof.
  unfold reset_relocation_set, bind, relocation_set_iterator, gets.
  rewrite for_each_forwarding_table_remove.
  unfold relocation_set_reset, modify, log, with_heap. simpl.
  rewrite <- app_assoc. reflexivity.
Qed.

(** ** Selection of the relocation set *)

(** C1.  Let the selector choose among the pages registered live, and let
    the page table hold each page under its start address.  Every page of
    the page table that is relocatable and not marked is removed from the
    page table and handed back to the page allocator, in that order, by
    calls that come before the call to [select]; no call before [select]
    inserts a page into the page table.  On return the page has no entry in
    the page table, it is not among the selected pages, and no forwarding
    of the relocation set is a forwarding of it. *)
Theorem select_relocation_set_reclaims_garbage (w : World) (p : ZPage) :
  selects_registered_live ->
  page_table_wf (_page_table (heap w)) ->
  _page_table (heap w) !! page_start p = Some p ->
  is_relocatable p = true ->
  is_marked p = false ->
  exists w' before selected after,
    select_relocation_set w = Returned tt w' /\
    trace w' = trace w ++ before ++ Call_selector_select selected :: after /\
    (exists b1 b2,
       before = b1 ++ Call_page_table_remove p
                   :: Call_page_allocator_free_page p true :: b2) /\
    (forall e, In e before ->
       (forall q, e <> Call_page_table_insert q) /\
       (forall l, e <> Call_selector_select l)) /\
    _page_table (heap w') !! page_start p = None /\
    ~ In p selected /\
    _relocation_set (heap w') = ZForwarding_create <$> selected /\
    (forall f, In f (_relocation_set (heap w')) -> forwarding_page f <> p).
Proof.
  intros Hsel Hwf Hp Hrel Hmark.
  destruct (select_relocation_set_spec w Hwf)
    as (w' & Hrun & _ & Hpt & Hrs & _ & Htr).
  set (pages := snd <$> page_table_entries (_page_table (heap w))) in *.
  set (selector := registered pages ZRelocationSetSelector_new) in *.
  set (selected := ZRelocationSetSelector_select selector) in *.
  assert (Hin : In p pages) by (apply page_table_pages_In; eauto).
  assert (Hg : is_garbage p = true)
    by (unfold is_garbage; rewrite Hrel, Hmark; reflexivity).
  assert (Hnot : ~ In p selected).
  { intros H. apply Hsel in H. simpl in H.
    apply filter_In in H. destruct H as [_ H].
    unfold is_live in H. rewrite Hmark, andb_false_r in H. discriminate H. }
  exists w'. eexists. exists selected. eexists.
  split; [exact Hrun|]. split; [exact Htr|].
  split; [|split; [|split; [|split; [exact Hnot|split; [exact Hrs|]]]]].
  - destruct (register_calls_of_garbage pages p Hin Hg) as (b1 & b2 & Hb).
    exists (Call_page_allocator_enable_deferred_delete
              :: b1 ++ [Call_selector_register_garbage_page p]),
           (b2 ++ [Call_page_allocator_disable_deferred_delete]).
    rewrite Hb. simpl. rewrite <- !app_assoc. reflexivity.
  - intros e [<-|He]; [split; intros; discriminate|].
    apply in_app_or in He. destruct He as [He|[<-|[]]];
      [|split; intros; discriminate].
    apply register_calls_kinds in He.
    destruct He as (q & _ & [->|[->|[->| ->]]]); split; intros; discriminate.
  - rewrite Hpt. unfold remove_pages.
    apply (foldl_delete_In page_start). apply filter_In. split; assumption.
  - intros f Hf Hfp. rewrite Hrs in Hf. apply in_map_iff in Hf.
    destruct Hf as (q & <- & Hq). simpl in Hfp. subst q. contradiction.
Qed.

(** C3, as amended.  [select_relocation_set] makes no check of the global
    phase.  In whatever phase it is called it runs to its end, and it leaves
    the phase as it found it; called in another phase [phase] it does the
    same to the heap and makes the same calls. *)
Theorem select_relocation_set_any_phase (w : World) (phase : ZPhase) :
  exists w',
    select_relocation_set w = Returned tt w' /\
    ZGlobalPhase (runtime w') = ZGlobalPhase (runtime w) /\
    select_relocation_set (with_runtime (rt_with_phase phase) w)
    = Returned tt (with_runtime (rt_with_phase phase) w').
Proof.
  destruct (select_relocation_set_frame w) as (w' & Hrun & Hrt).
  exists w'. split; [exact Hrun|]. split; [rewrite Hrt; reflexivity|].
  rewrite select_relocation_set_runtime, Hrun. reflexivity.
Qed.

Lemma insert_forwardings_lookup_Some (fs : list ZForwarding) (ft : gmap Z ZForwarding)
  (k : Z) (f : ZForwarding) :
  insert_forwardings fs ft !! k = Some f ->
  ft !! k = Some f \/ (In f fs /\ forwarding_start f = k).
Proof.
  unfold insert_forwardings.
  revert ft. induction fs as [|g fs IH]; intros ft H; simpl in H; [left; exact H|].
  apply IH in H. destruct H as [H|[Hin Hk]].
  - rewrite lookup_insert in H.
    destruct (decide (forwarding_start g = k)) as [E|E].
    + injection H as ->. right. split; [left; reflexivity|exact E].
    + left. exact H.
  - right. split; [right; exact Hin|exact Hk].
Qed.

Lemma remove_forwardings_all (fs : list ZForwarding) (ft : gmap Z ZForwarding) :
  (forall k f, ft !! k = Some f -> In f fs /\ forwarding_start f = k) ->
  remove_forwardings fs ft = ∅.
Proof.
  intros Hall. apply map_eq. intros k. rewrite lookup_empty.
  unfold remove_forwardings.
  destruct (ft !! k) as [f|] eqn:Hk.
  - destruct (Hall k f Hk) as [Hin <-].
    apply (foldl_delete_In forwarding_start). exact Hin.
  - apply foldl_delete_None. exact Hk.
Qed.

(** [reset_relocation_set] in the Relocate phase, on a forwarding table
    that holds the forwardings of the relocation set only, leaves the
    collector at rest. *)
Lemma reset_relocation_set_idle (w : World) :
  ZGlobalPhase (runtime w) = ZPhaseRelocate ->
  forwardings_of_relocation_set w ->
  exists w', reset_relocation_set w = Returned tt w' /\ collector_idle w'.
Proof.
  intros Hphase Hfs. rewrite reset_relocation_set_spec.
  eexists. split; [reflexivity|]. unfold collector_idle. simpl.
  split; [exact Hphase|]. split; [reflexivity|].
  apply remove_forwardings_all. exact Hfs.
Qed.

(** C7.  [select_relocation_set] puts into the relocation set one
    forwarding per selected page and inserts each of them into the
    forwarding table, where it is found under the start address of its
    page; starting from an empty forwarding table, these are the only
    forwardings in the table.  [reset_relocation_set], in whatever world it
    is called, removes from the forwarding table every forwarding of the
    relocation set and empties the relocation set, and it leaves the global
    phase as it was.  Called where the cycle calls it, in the Relocate
    phase with the forwardings of the relocation set in the forwarding
    table, it leaves the collector in its resting state, Idle: the phase
    is the one the cycle ended in, the relocation set is empty and so is
    the forwarding table. *)
Theorem reset_relocation_set_removes_forwardings (w wr : World) :
  (selects_registered_live ->
   page_table_wf (_page_table (heap w)) ->
   exists w1 selected,
     select_relocation_set w = Returned tt w1 /\
     _relocation_set (heap w1) = ZForwarding_create <$> selected /\
     (forall f, In f (_relocation_set (heap w1)) ->
        In (Call_forwarding_table_insert f) (trace w1) /\
        _forwarding_table (heap w1) !! forwarding_start f = Some f) /\
     (_forwarding_table (heap w) = ∅ -> forwardings_of_relocation_set w1)) /\
  (exists w2,
     reset_relocation_set wr = Returned tt w2 /\
     (forall f, In f (_relocation_set (heap wr)) ->
        In (Call_forwarding_table_remove f) (trace w2) /\
        _forwarding_table (heap w2) !! forwarding_start f = None) /\
     _relocation_set (heap w2) = [] /\
     ZGlobalPhase (runtime w2) = ZGlobalPhase (runtime wr) /\
     runtime w2 = runtime wr /\
     (ZGlobalPhase (runtime wr) = ZPhaseRelocate ->
      forwardings_of_relocation_set wr ->
      collector_idle w2)).
Proof.
  split.
  - intros Hsel Hwf.
    destruct (select_relocation_set_spec w Hwf)
      as (w1 & Hrun & _ & _ & Hrs & Hft & Htr).
    set (pages := snd <$> page_table_entries (_page_table (heap w))) in *.
    set (selector := registered pages ZRelocationSetSelector_new) in *.
    set (selected := ZRelocationSetSelector_select selector) in *.
    exists w1, selected. split; [exact Hrun|]. split; [exact Hrs|].
    split.
    + intros f Hf. rewrite Hrs in Hf. split.
      * rewrite Htr. apply in_or_app. right. apply in_or_app. right.
        right. apply in_or_app. left. apply in_map. exact Hf.
      * rewrite Hft. apply insert_forwardings_lookup; [|exact Hf].
        assert (Hkey : forall q, In q selected ->
                  _page_table (heap w) !! page_start q = Some q).
        { intros q Hq. apply Hsel in Hq. simpl in Hq.
          apply filter_In in Hq. destruct Hq as [Hq _].
          apply page_table_pages_In in Hq. destruct Hq as (k & Hk).
          rewrite (map_Forall_lookup_1 _ _ _ _ Hwf Hk). exact Hk. }
        intros f1 f2 H1 H2 Hstart.
        apply in_map_iff in H1. destruct H1 as (q1 & <- & Hq1).
        apply in_map_iff in H2. destruct H2 as (q2 & <- & Hq2).
        unfold forwarding_start in Hstart. simpl in Hstart.
        apply Hkey in Hq1. apply Hkey in Hq2. rewrite Hstart in Hq1.
        rewrite Hq1 in Hq2. injection Hq2 as ->. reflexivity.
    + intros Hempty k f Hk. rewrite Hft, Hempty in Hk.
      apply insert_forwardings_lookup_Some in Hk.
      destruct Hk as [Hk|Hk]; [rewrite lookup_empty in Hk; discriminate Hk|].
      rewrite Hrs. exact Hk.
  - eexists. split; [apply reset_relocation_set_spec|]. simpl.
    split; [|split; [reflexivity|split; [reflexivity|split; [reflexivity|]]]].
    + intros f Hf. split.
      * apply in_or_app. right. apply in_or_app. left. apply in_map. exact Hf.
      * unfold remove_forwardings. apply (foldl_delete_In forwarding_start).
        exact Hf.
    + intros Hphase Hfs. unfold collector_idle. simpl.
      split; [exact Hphase|]. split; [reflexivity|].
      apply remove_forwardings_all. exact Hfs.
Qed.

End Properties.

(** * The properties on the small heap *)

(** [mark_end] with work left returns false and changes neither the phase
    nor the resurrection block; once the mark stacks are empty it returns
    true, in phase MarkCompleted with resurrection blocked. *)
Example mark_end_retry :
  (exists w',
     mark_end Scenario.world_marking = Returned false w' /\
     ZGlobalPhase (runtime w') = ZPhaseMark /\
     ZResurrection_blocked (runtime w') = false) /\
  (exists w',
     mark_end (Scenario.world0 ZPhaseMark) = Returned true w' /\
     ZGlobalPhase (runtime w') = ZPhaseMarkCompleted /\
     ZResurrection_blocked (runtime w') = true).
Proof.
  split; eexists; (split; [vm_compute; reflexivity|]); split; reflexivity.
Qed.

(** Of the three pages of the small heap, [select_relocation_set] frees
    the garbage one, leaves the allocating one alone and selects the live
    one. *)
Example select_relocation_set_small_heap :
  exists w',
    select_relocation_set (Scenario.world0 ZPhaseMarkCompleted) = Returned tt w' /\
    size (_page_table (heap w')) = 2%nat /\
    _page_table (heap w') !! page_start Scenario.garbage_page = None /\
    _page_table (heap w') !! page_start Scenario.fresh_page = Some Scenario.fresh_page /\
    _relocation_set (heap w') = [ZForwarding_create Scenario.live_page] /\
    _forwarding_table (heap w') !! page_start Scenario.live_page
      = Some (ZForwarding_create Scenario.live_page) /\
    pa_reclaimed (_page_allocator (heap w')) = Scenario.granule /\
    deferred_delete_enabled (_page_allocator (heap w')) = false.
Proof.
  eexists. split; [vm_compute; reflexivity|].
  repeat split; vm_compute; reflexivity.
Qed.

(** An allocation that does not fit returns NULL and leaves the page table
    alone; one that fits is entered at its start address. *)
Example alloc_page_small_heap :
  (exists w',
     alloc_page 0 (2 * Scenario.granule) 0 (Scenario.world0 ZPhaseMark)
     = Returned None w' /\
     _page_table (heap w') = Scenario.page_table0) /\
  (exists p w',
     alloc_page 0 Scenario.granule 0 (Scenario.world0 ZPhaseMark)
     = Returned (Some p) w' /\
     page_start p = 3 * Scenario.granule /\
     _page_table (heap w') !! page_start p = Some p).
Proof.
  split.
  - eexists. split; [vm_compute; reflexivity|]. reflexivity.
  - eexists. eexists. split; [vm_compute; reflexivity|].
    split; vm_compute; reflexivity.
Qed.

Lemma scenario_selects_registered_live :
  @selects_registered_live Scenario.collaborators.
Proof. intros s p H. exact H. Qed.

Lemma scenario_page_table_wf : page_table_wf Scenario.page_table0.
Proof.
  unfold page_table_wf, Scenario.page_table0.
  repeat (apply map_Forall_insert_2; [reflexivity|]).
  apply map_Forall_empty.
Qed.

(** The garbage page of the small heap is freed before [select] and is not
    relocated. *)
Lemma select_relocation_set_reclaims_garbage_witness :
  exists w',
    select_relocation_set (Scenario.world0 ZPhaseMarkCompleted) = Returned tt w' /\
    _page_table (heap w') !! page_start Scenario.garbage_page = None /\
    (forall f, In f (_relocation_set (heap w')) ->
       forwarding_page f <> Scenario.garbage_page).
Proof.
  destruct (select_relocation_set_reclaims_garbage
              (Scenario.world0 ZPhaseMarkCompleted) Scenario.garbage_page)
    as (w' & before & selected & after & Hrun & _ & _ & _ & Hpt & _ & _ & Hrs).
  - exact scenario_selects_registered_live.
  - exact scenario_page_table_wf.
  - vm_compute. reflexivity.
  - reflexivity.
  - reflexivity.
  - exists w'. split; [exact Hrun|]. split; [exact Hpt|exact Hrs].
Defined.

(** With an entry left on the mark stacks, [mark_end] returns false and the
    phase stays Mark. *)
Lemma mark_end_returns_termination_witness :
  exists w',
    mark_end Scenario.world_marking = Returned false w' /\
    runtime w' = runtime Scenario.world_marking.
Proof.
  destruct (mark_end_returns_termination Scenario.world_marking)
    as (w' & calls & Hrun & _ & _ & _ & _ & _ & _ & _ & Hrt & _).
  - simpl. reflexivity.
  - exists w'. split; [exact Hrun|exact Hrt].
Defined.

(** In the first cycle, with frequency 5 and an ordinary cause, classes are
    unloaded: [finish_non_strong_references] is the one to unblock. *)
Lemma non_strong_references_split_witness :
  exists w',
    finish_non_strong_references (Scenario.world0 ZPhaseMarkCompleted)
    = Returned tt w' /\
    ZResurrection_blocked (runtime w') = false.
Proof.
  destruct (non_strong_references_split (Scenario.world0 ZPhaseMarkCompleted))
    as [Hon _].
  destruct Hon as [_ (w' & Hrun & _ & Hb)].
  - vm_compute. reflexivity.
  - exists w'. split; [exact Hrun|exact Hb].
Defined.

(** With frequency 5, exactly one of the cycles 1 to 5 unloads classes. *)
Lemma should_unload_class_gated_witness :
  exists! k,
    1 <= k < 1 + 5 /\
    should_unload_class
      (rt_with_seqnum k (Scenario.runtime0 ZPhaseMarkCompleted)) = true.
Proof.
  destruct (should_unload_class_gated (Scenario.runtime0 ZPhaseMarkCompleted))
    as [_ Hon].
  destruct Hon as [_ Hother]; [reflexivity|].
  destruct Hother as [_ Hfreq]; [reflexivity|].
  destruct Hfreq as [_ Hwin]; [simpl; lia|].
  apply (Hwin 1); simpl; lia.
Defined.

(** On the small heap the selected page has its forwarding in the
    forwarding table, and [reset_relocation_set], called in the Relocate
    phase once the page is selected, leaves the collector at rest. *)
Lemma reset_relocation_set_removes_forwardings_witness :
  (exists w1 selected,
     select_relocation_set (Scenario.world0 ZPhaseMarkCompleted) = Returned tt w1 /\
     _relocation_set (heap w1) = ZForwarding_create <$> selected /\
     (forall f, In f (_relocation_set (heap w1)) ->
        In (Call_forwarding_table_insert f) (trace w1) /\
        _forwarding_table (heap w1) !! forwarding_start f = Some f) /\
     forwardings_of_relocation_set w1) /\
  (exists w2,
     reset_relocation_set Scenario.world_selected = Returned tt w2 /\
     collector_idle w2).
Proof.
  destruct (reset_relocation_set_removes_forwardings
              (Scenario.world0 ZPhaseMarkCompleted) Scenario.world_selected)
    as [Hselect (w2 & Hrun & _ & _ & _ & _ & Hidle)].
  split.
  - destruct Hselect as (w1 & selected & Hrun1 & Hrs & Hins & Honly).
    + exact scenario_selects_registered_live.
    + exact scenario_page_table_wf.
    + exists w1, selected. split; [exact Hrun1|]. split; [exact Hrs|].
      split; [exact Hins|]. apply Honly. reflexivity.
  - exists w2. split; [exact Hrun|]. apply Hidle.
    + reflexivity.
    + intros k f Hk. simpl in Hk. apply lookup_insert_Some in Hk.
      destruct Hk as [[<- <-]|[_ Hk]].
      * split; [left; reflexivity|reflexivity].
      * rewrite lookup_empty in Hk. discriminate Hk.
Defined.

(** In the Relocate phase [verify] halts at once. *)
Lemma verify_requires_mark_completed_witness :
  verify (Scenario.world0 ZPhaseRelocate)
  = Halted "Invalid phase" (Scenario.world0 ZPhaseRelocate).
Proof.
  destruct (verify_requires_mark_completed (Scenario.world0 ZPhaseRelocate))
    as (_ & Hhalt & _).
  apply Hhalt. simpl. discriminate.
Defined.

(** ** Where the code departs from the specification *)

(** C3.  In the Mark phase [select_relocation_set] does not halt: it runs
    to its end. *)
Lemma select_relocation_set_unchecked_in_mark_phase :
  (exists w', select_relocation_set (Scenario.world0 ZPhaseMark) = Returned tt w') /\
  ~ (ZGlobalPhase (runtime (Scenario.world0 ZPhaseMark)) <> ZPhaseMarkCompleted ->
     exists msg w',
       select_relocation_set (Scenario.world0 ZPhaseMark) = Halted msg w').
Proof.
  split.
  - eexists. vm_compute. reflexivity.
  - intros H. destruct H as (msg & w' & H); [discriminate|].
    vm_compute in H. discriminate H.
Qed.

(** C4.  With [ClassUnloading] off, a collection for [System.gc()] does not
    unload classes, although the cause is one of the fixed set. *)
Lemma should_unload_class_off_for_system_gc :
  cause_implies_unloading (gc_cause Scenario.runtime_no_unloading) = true /\
  should_unload_class Scenario.runtime_no_unloading = false /\
  ~ (cause_implies_unloading (gc_cause Scenario.runtime_no_unloading) = true ->
     should_unload_class Scenario.runtime_no_unloading = true).
Proof.
  split; [reflexivity|]. split; [reflexivity|].
  intros H. specialize (H eq_refl). discriminate H.
Qed.

(** C6.  The value [relocate] returns is the same whether the relocation
    engine succeeded or stalled: the caller cannot read the result off it. *)
Lemma relocate_returns_no_result :
  ~ exists decode : unit -> bool,
      forall w : @World Scenario.collaborators,
        match relocate w with
        | Returned v _ =>
            decode v = fst (ZRelocate_relocate (_relocate (heap w))
                              (_relocation_set (heap w)))
        | Halted _ _ => True
        end.
Proof.
  intros [decode H].
  pose proof (H (Scenario.world0 ZPhaseRelocate)) as Hok.
  pose proof (H Scenario.world_stall) as Hstall.
  vm_compute in Hok, Hstall. congruence.
Qed.


(** * Further properties of the entry points *)

Section MoreProperties.

Context {X : ZCollaborators}.

Local Open Scope heap_scope.

(** ** Tables *)

Lemma foldl_delete_Some {A B : Type} (key : B -> Z) (l : list B) (m : gmap Z A)
  (k : Z) (a : A) :
  foldl (fun m b => delete (key b) m) m l !! k = Some a -> m !! k = Some a.
Proof.
  revert m. induction l as [|b l IH]; intros m H; simpl in H; [exact H|].
  apply IH in H. rewrite lookup_delete in H.
  destruct (decide (key b = k)); [discriminate H|exact H].
Qed.

Lemma foldl_delete_other {A B : Type} (key : B -> Z) (l : list B) (m : gmap Z A) (k : Z) :
  (forall b, In b l -> key b <> k) ->
  foldl (fun m b => delete (key b) m) m l !! k = m !! k.
Proof.
  revert m. induction l as [|b l IH]; intros m H; simpl; [reflexivity|].
  rewrite IH by (intros b' Hb'; apply H; right; exact Hb').
  apply lookup_delete_ne. apply H. left. reflexivity.
Qed.

Lemma insert_forwardings_other (fs : list ZForwarding) (ft : gmap Z ZForwarding) (k : Z) :
  (forall f, In f fs -> forwarding_start f <> k) ->
  insert_forwardings fs ft !! k = ft !! k.
Proof.
  unfold insert_forwardings.
  revert ft. induction fs as [|f fs IH]; intros ft H; simpl; [reflexivity|].
  rewrite IH by (intros f' Hf'; apply H; right; exact Hf').
  apply lookup_insert_ne. apply H. left. reflexivity.
Qed.

(** Removing the forwardings that were inserted gives the table back,
    when none of them replaced an entry. *)
Lemma remove_insert_forwardings (fs : list ZForwarding) (ft : gmap Z ZForwarding) :
  (forall f, In f fs -> ft !! forwarding_start f = None) ->
  remove_forwardings fs (insert_forwardings fs ft) = ft.
Proof.
  intros Hfree. apply map_eq. intros k. unfold remove_forwardings.
  destruct (in_dec Z.eq_dec k (List.map forwarding_start fs)) as [Hin|Hout].
  - apply in_map_iff in Hin. destruct Hin as (f & <- & Hf).
    rewrite (foldl_delete_In forwarding_start) by exact Hf.
    symmetry. apply Hfree. exact Hf.
  - assert (Hne : forall f, In f fs -> forwarding_start f <> k).
    { intros f Hf E. apply Hout. apply in_map_iff. exists f. split; assumption. }
    rewrite (foldl_delete_other forwarding_start) by exact Hne.
    apply insert_forwardings_other. exact Hne.
Qed.

(** The page table once the garbage pages among its entries are removed
    holds exactly the entries that are not garbage. *)
Lemma remove_garbage_lookup (pt : gmap Z ZPage) (k : Z) (p : ZPage) :
  page_table_wf pt ->
  remove_pages (List.filter is_garbage (snd <$> page_table_entries pt)) pt !! k = Some p
  <-> pt !! k = Some p /\ is_garbage p = false.
Proof.
  intros Hwf. unfold remove_pages. split.
  - intros H. pose proof (foldl_delete_Some page_start _ _ _ _ H) as Hk.
    split; [exact Hk|].
    destruct (is_garbage p) eqn:Hg; [|reflexivity].
    assert (Hin : In p (List.filter is_garbage (snd <$> page_table_entries pt))).
    { apply filter_In. split; [|exact Hg]. apply page_table_pages_In. eauto. }
    apply (foldl_delete_In page_start _ pt) in Hin.
    rewrite (map_Forall_lookup_1 _ _ _ _ Hwf Hk) in Hin.
    rewrite Hin in H. discriminate H.
  - intros [Hk Hg]. rewrite (foldl_delete_other page_start); [exact Hk|].
    intros q Hq Hstart. apply filter_In in Hq. destruct Hq as [Hq Hgq].
    apply page_table_pages_In in Hq. destruct Hq as (k' & Hk').
    rewrite (map_Forall_lookup_1 _ _ _ _ Hwf Hk') in Hstart. subst k'.
    rewrite Hk in Hk'. injection Hk' as ->. rewrite Hg in Hgq. discriminate Hgq.
Qed.

(** The loop of [select_relocation_set] leaves everything but the page
    table and the page allocator alone, and makes no call but to register,
    remove and free pages. *)
Lemma register_pages_heap_frame (slots : list Z) (s : ZRelocationSetSelector) (w : World) :
  exists s1 w1 calls,
    page_table_iterate slots register_page s w = Returned s1 w1 /\
    runtime w1 = runtime w /\
    _forwarding_table (heap w1) = _forwarding_table (heap w) /\
    _mark (heap w1) = _mark (heap w) /\
    _relocate (heap w1) = _relocate (heap w) /\
    _relocation_set (heap w1) = _relocation_set (heap w) /\
    trace w1 = trace w ++ calls /\
    (forall e, In e calls ->
       exists p, e = Call_selector_register_live_page p \/
                 e = Call_selector_register_garbage_page p \/
                 e = Call_page_table_remove p \/
                 e = Call_page_allocator_free_page p true).
Proof.
  revert s w. induction slots as [|slot rest IH]; intros s w; simpl.
  - exists s, w, []. rewrite app_nil_r. repeat split. intros e [].
  - destruct (_page_table (heap w) !! slot) as [page|]; [|apply IH].
    destruct (register_page_spec page s w)
      as (w1 & Hrun & Hrt & _ & Hft & Hm & Hr & Hrs & Htr).
    rewrite Hrun.
    destruct (IH (registered [page] s) w1)
      as (s2 & w2 & calls & Hrun2 & Hrt2 & Hft2 & Hm2 & Hr2 & Hrs2 & Htr2 & Hkinds).
    exists s2, w2, (register_calls page ++ calls).
    split; [exact Hrun2|]. split; [congruence|]. split; [congruence|].
    split; [congruence|]. split; [congruence|]. split; [congruence|].
    split; [rewrite Htr2, Htr, <- app_assoc; reflexivity|].
    intros e He. apply in_app_or in He. destruct He as [He|He]; [|auto].
    exists page. unfold register_calls in He.
    destruct (is_relocatable page); simpl in He; [|contradiction].
    destruct (is_marked page); simpl in He; intuition.
Qed.

(** ** Selection of the relocation set *)

(** X1.  [select_relocation_set] opens the deferred-delete window once and
    closes it once, and every page it removes from the page table or frees
    is removed and freed inside the window: no call after the window is
    closed removes or frees a page. *)
Theorem select_relocation_set_frees_while_deferred (w : World) :
  exists w' inside after,
    select_relocation_set w = Returned tt w' /\
    trace w' = trace w
               ++ Call_page_allocator_enable_deferred_delete :: inside
               ++ Call_page_allocator_disable_deferred_delete :: after /\
    (forall e, In e inside ->
       e <> Call_page_allocator_enable_deferred_delete /\
       e <> Call_page_allocator_disable_deferred_delete) /\
    (forall e, In e after ->
       e <> Call_page_allocator_enable_deferred_delete /\
       e <> Call_page_allocator_disable_deferred_delete /\
       (forall p, e <> Call_page_table_remove p) /\
       (forall p r, e <> Call_page_allocator_free_page p r)).
Proof.
  destruct (register_pages_heap_frame (fst <$> page_table_entries (_page_table (heap w)))
              ZRelocationSetSelector_new
              (log Call_page_allocator_enable_deferred_delete
                 (with_heap (fun h =>
                    heap_with_page_allocator
                      (ZPageAllocator_enable_deferred_delete (_page_allocator h)) h) w)))
    as (s1 & w1 & calls & Hloop & _ & _ & _ & _ & _ & Htr & Hkinds).
  rewrite (select_relocation_set_after_loop w w1 s1 Hloop).
  eexists. exists calls. eexists. split; [reflexivity|].
  split; [|split].
  - unfold after_selection. simpl. rewrite Htr. simpl.
    rewrite <- !app_assoc. simpl. reflexivity.
  - intros e He. destruct (Hkinds e He) as (p & [->|[->|[->| ->]]]);
      split; discriminate.
  - intros e [<-|He]; [repeat split; intros; discriminate|].
    apply in_app_or in He. destruct He as [He|He].
    + apply in_map_iff in He. destruct He as (f & <- & _).
      repeat split; intros; discriminate.
    + destruct He as [<-|[<-|[]]]; repeat split; intros; discriminate.
Qed.

(** X2.  On a page table that holds each page under its start address,
    [select_relocation_set] leaves in the table exactly the pages that
    were there and are not garbage: every live page and every page that is
    not relocatable keeps its entry, no garbage page does, and each
    remaining page is still under its start address. *)
Theorem select_relocation_set_page_table (w : World) :
  page_table_wf (_page_table (heap w)) ->
  exists w',
    select_relocation_set w = Returned tt w' /\
    (forall k p,
       _page_table (heap w') !! k = Some p
       <-> _page_table (heap w) !! k = Some p /\ is_garbage p = false) /\
    page_table_wf (_page_table (heap w')).
Proof.
  intros Hwf.
  destruct (select_relocation_set_spec w Hwf) as (w' & Hrun & _ & Hpt & _).
  exists w'. split; [exact Hrun|].
  assert (Hiff : forall k p,
            _page_table (heap w') !! k = Some p
            <-> _page_table (heap w) !! k = Some p /\ is_garbage p = false).
  { intros k p. rewrite Hpt. apply remove_garbage_lookup. exact Hwf. }
  split; [exact Hiff|].
  intros k p Hk. apply Hiff in Hk. destruct Hk as [Hk _].
  exact (map_Forall_lookup_1 _ _ _ _ Hwf Hk).
Qed.

(** X3.  With a selector that chooses among the pages registered live, and
    a page table that holds each page under its start address, every page
    of the relocation set [select_relocation_set] builds is relocatable and
    marked, and still has its entry in the page table. *)
Theorem select_relocation_set_selects_live_pages (w : World) :
  selects_registered_live ->
  page_table_wf (_page_table (heap w)) ->
  exists w',
    select_relocation_set w = Returned tt w' /\
    forall f, In f (_relocation_set (heap w')) ->
      is_relocatable (forwarding_page f) = true /\
      is_marked (forwarding_page f) = true /\
      _page_table (heap w') !! forwarding_start f = Some (forwarding_page f).
Proof.
  intros Hsel Hwf.
  destruct (select_relocation_set_spec w Hwf) as (w' & Hrun & _ & Hpt & Hrs & _).
  exists w'. split; [exact Hrun|].
  intros f Hf. rewrite Hrs in Hf. apply in_map_iff in Hf.
  destruct Hf as (q & <- & Hq). unfold forwarding_start. simpl.
  apply Hsel in Hq. simpl in Hq. apply filter_In in Hq. destruct Hq as [Hq Hlive].
  unfold is_live in Hlive. apply andb_true_iff in Hlive. destruct Hlive as [Hrel Hm].
  split; [exact Hrel|]. split; [exact Hm|].
  apply page_table_pages_In in Hq. destruct Hq as (k & Hk).
  pose proof (map_Forall_lookup_1 _ _ _ _ Hwf Hk) as Hstart. simpl in Hstart.
  rewrite Hpt. apply remove_garbage_lookup; [exact Hwf|].
  rewrite Hstart. split; [exact Hk|].
  unfold is_garbage. rewrite Hm, andb_false_r. reflexivity.
Qed.

(** The loop of [select_relocation_set] over a page table without a
    relocatable page registers nothing and changes nothing. *)
Lemma register_pages_nothing_relocatable (slots : list Z) (s : ZRelocationSetSelector)
  (w : World) :
  (forall k p, _page_table (heap w) !! k = Some p -> is_relocatable p = false) ->
  page_table_iterate slots register_page s w = Returned s w.
Proof.
  intros Hnone. induction slots as [|slot rest IH]; simpl; [reflexivity|].
  destruct (_page_table (heap w) !! slot) as [page|] eqn:Hslot; [|exact IH].
  unfold register_page. rewrite (Hnone slot page Hslot). simpl. exact IH.
Qed.

(** X4.  When no page of the page table is relocatable (an empty page
    table among the cases), [select_relocation_set] frees nothing and, with
    a selector that chooses among the pages registered live, selects
    nothing: the page table and the forwarding table are as they were and
    the relocation set is empty. *)
Theorem select_relocation_set_nothing_relocatable (w : World) :
  selects_registered_live ->
  (forall k p, _page_table (heap w) !! k = Some p -> is_relocatable p = false) ->
  exists w',
    select_relocation_set w = Returned tt w' /\
    _page_table (heap w') = _page_table (heap w) /\
    _forwarding_table (heap w') = _forwarding_table (heap w) /\
    _relocation_set (heap w') = [] /\
    trace w' = trace w
      ++ [Call_page_allocator_enable_deferred_delete;
          Call_page_allocator_disable_deferred_delete;
          Call_selector_select [];
          Call_ZStatRelocation_set_at_select_relocation_set ZRelocationSetSelector_new;
          Call_ZStatHeap_set_at_select_relocation_set ZRelocationSetSelector_new
            (pa_reclaimed (_page_allocator (heap w)))].
Proof.
  intros Hsel Hnone.
  assert (Hselected : ZRelocationSetSelector_select ZRelocationSetSelector_new = []).
  { destruct (ZRelocationSetSelector_select ZRelocationSetSelector_new) as [|p l] eqn:E;
      [reflexivity|].
    exfalso. apply (Hsel ZRelocationSetSelector_new p). rewrite E. left. reflexivity. }
  rewrite (select_relocation_set_after_loop w _ ZRelocationSetSelector_new
             (register_pages_nothing_relocatable _ _
                (log Call_page_allocator_enable_deferred_delete
                   (with_heap (fun h =>
                      heap_with_page_allocator
                        (ZPageAllocator_enable_deferred_delete (_page_allocator h)) h) w))
                Hnone)).
  eexists. split; [reflexivity|].
  unfold after_selection. rewrite Hselected. simpl.
  repeat split. rewrite <- app_assoc. reflexivity.
Qed.

(** X15.  A second [select_relocation_set] finds no garbage left: on a
    page table that holds each page under its start address, it leaves the
    page table exactly as the first one left it. *)
Theorem select_relocation_set_twice (w : World) :
  page_table_wf (_page_table (heap w)) ->
  exists w1 w2,
    select_relocation_set w = Returned tt w1 /\
    select_relocation_set w1 = Returned tt w2 /\
    _page_table (heap w2) = _page_table (heap w1).
Proof.
  intros Hwf.
  destruct (select_relocation_set_spec w Hwf) as (w1 & Hrun1 & _ & Hpt1 & _).
  assert (Hiff1 : forall k p,
            _page_table (heap w1) !! k = Some p
            <-> _page_table (heap w) !! k = Some p /\ is_garbage p = false).
  { intros k p. rewrite Hpt1. apply remove_garbage_lookup. exact Hwf. }
  assert (Hwf1 : page_table_wf (_page_table (heap w1))).
  { intros k p Hk. apply Hiff1 in Hk. destruct Hk as [Hk _].
    exact (map_Forall_lookup_1 _ _ _ _ Hwf Hk). }
  destruct (select_relocation_set_spec w1 Hwf1) as (w2 & Hrun2 & _ & Hpt2 & _).
  exists w1, w2. split; [exact Hrun1|]. split; [exact Hrun2|].
  apply map_eq. intros k.
  destruct (_page_table (heap w1) !! k) as [p|] eqn:Hk1.
  - rewrite Hpt2. apply remove_garbage_lookup; [exact Hwf1|].
    split; [exact Hk1|]. apply Hiff1 in Hk1. apply Hk1.
  - destruct (_page_table (heap w2) !! k) as [q|] eqn:Hk2; [|reflexivity].
    rewrite Hpt2 in Hk2. apply remove_garbage_lookup in Hk2; [|exact Hwf1].
    destruct Hk2 as [Hk2 _]. rewrite Hk1 in Hk2. discriminate Hk2.
Qed.

(** ** Reset of the relocation set *)

(** X5.  [reset_relocation_set] touches the forwarding table only at the
    start addresses of the forwardings of the relocation set: every other
    entry is as it was.  The page table, the page allocator and the
    engines are left alone. *)
Theorem reset_relocation_set_frame (w : World) :
  exists w',
    reset_relocation_set w = Returned tt w' /\
    (forall k,
       (forall f, In f (_relocation_set (heap w)) -> forwarding_start f <> k) ->
       _forwarding_table (heap w') !! k = _forwarding_table (heap w) !! k) /\
    _page_table (heap w') = _page_table (heap w) /\
    _page_allocator (heap w') = _page_allocator (heap w) /\
    _mark (heap w') = _mark (heap w) /\
    _relocate (heap w') = _relocate (heap w).
Proof.
  rewrite reset_relocation_set_spec. eexists. split; [reflexivity|]. simpl.
  split; [|repeat split].
  intros k Hk. unfold remove_forwardings.
  apply (foldl_delete_other forwarding_start). exact Hk.
Qed.

(** X6.  A selection followed by a reset leaves the relocation set empty
    and the page table as the selection left it; and it gives the
    forwarding table back as it was before the selection, provided the
    table held no entry at the start address of a selected page. *)
Theorem select_then_reset_relocation_set (w : World) :
  exists w1 w2,
    select_relocation_set w = Returned tt w1 /\
    reset_relocation_set w1 = Returned tt w2 /\
    _relocation_set (heap w2) = [] /\
    _page_table (heap w2) = _page_table (heap w1) /\
    ((forall f, In f (_relocation_set (heap w1)) ->
        _forwarding_table (heap w) !! forwarding_start f = None) ->
     _forwarding_table (heap w2) = _forwarding_table (heap w)).
Proof.
  destruct (register_pages_heap_frame (fst <$> page_table_entries (_page_table (heap w)))
              ZRelocationSetSelector_new
              (log Call_page_allocator_enable_deferred_delete
                 (with_heap (fun h =>
                    heap_with_page_allocator
                      (ZPageAllocator_enable_deferred_delete (_page_allocator h)) h) w)))
    as (s1 & w1 & calls & Hloop & _ & Hft & _).
  rewrite (select_relocation_set_after_loop w w1 s1 Hloop).
  eexists. eexists. split; [reflexivity|].
  split; [apply reset_relocation_set_spec|]. simpl.
  split; [reflexivity|]. split; [reflexivity|].
  intros Hfree. rewrite Hft. simpl. apply remove_insert_forwardings. exact Hfree.
Qed.

(** From an empty forwarding table, [select_relocation_set] leaves in it
    the forwardings of the relocation set and nothing else. *)
Lemma select_relocation_set_from_empty_forwarding_table (w : World) :
  _forwarding_table (heap w) = ∅ ->
  exists w1,
    select_relocation_set w = Returned tt w1 /\
    runtime w1 = runtime w /\
    forwardings_of_relocation_set w1.
Proof.
  intros Hempty.
  destruct (register_pages_heap_frame
              (fst <$> page_table_entries (_page_table (heap w)))
              ZRelocationSetSelector_new
              (log Call_page_allocator_enable_deferred_delete
                 (with_heap (fun h =>
                    heap_with_page_allocator
                      (ZPageAllocator_enable_deferred_delete (_page_allocator h)) h) w)))
    as (s1 & w1 & calls & Hloop & Hrt & Hft & _).
  rewrite (select_relocation_set_after_loop w w1 s1 Hloop).
  eexists. split; [reflexivity|]. split; [exact Hrt|].
  intros k f Hk. unfold after_selection in Hk. simpl in Hk.
  rewrite Hft in Hk. simpl in Hk. rewrite Hempty in Hk.
  apply insert_forwardings_lookup_Some in Hk.
  destruct Hk as [Hk|Hk]; [rewrite lookup_empty in Hk; discriminate Hk|].
  exact Hk.
Qed.

(** ** Non-strong references and class unloading *)

(** X7.  The sequence [process_non_strong_references], [unload_class],
    [finish_non_strong_references].  When classes are to be unloaded it
    runs to its end: the classes are unloaded after the references and the
    concurrent weak roots are processed and before resurrection is
    unblocked, and the references are enqueued last.  When they are not,
    the references are already enqueued by the first call, and the sequence
    halts at the third one, after [unload_class] has run. *)
Theorem non_strong_references_sequence (w : World) :
  let sequence :=
    process_non_strong_references ;; unload_class ;; finish_non_strong_references in
  (should_unload_class (runtime w) = true ->
   exists w',
     sequence w = Returned tt w' /\
     trace w' = trace w ++
       [Call_reference_processor_process_references;
        Call_weak_roots_processor_process_concurrent_weak_roots;
        Call_unload_unload;
        Call_ZResurrection_unblock;
        Call_reference_processor_enqueue_references] /\
     ZResurrection_blocked (runtime w') = false) /\
  (should_unload_class (runtime w) = false ->
   exists w',
     sequence w = Halted "sanity" w' /\
     trace w' = trace w ++
       [Call_reference_processor_process_references;
        Call_weak_roots_processor_process_concurrent_weak_roots;
        Call_ZResurrection_unblock;
        Call_reference_processor_enqueue_references;
        Call_unload_unload] /\
     ZResurrection_blocked (runtime w') = false).
Proof.
  intros sequence. subst sequence.
  split; intros Hu;
    unfold process_non_strong_references, unload_class,
      finish_non_strong_references, bind, gets; simpl; rewrite Hu; simpl.
  - rewrite Hu. simpl. eexists. split; [reflexivity|]. simpl.
    split; [rewrite <- !app_assoc; reflexivity|reflexivity].
  - change (should_unload_class (rt_with_blocked false (runtime w)))
      with (should_unload_class (runtime w)).
    rewrite Hu. simpl. eexists. split; [reflexivity|]. simpl.
    split; [rewrite <- !app_assoc; reflexivity|reflexivity].
Qed.

(** ** Marking and verification *)

(** X8.  [verify] succeeds right after a [mark_end] that returned true,
    and halts right after one that returned false when the phase was not
    already MarkCompleted. *)
Theorem verify_after_mark_end (w : World) :
  (ASSERT (runtime w) = true -> is_at_safepoint (runtime w) = true) ->
  let completed := fst (ZMark_end (_mark (heap w))) in
  exists w1,
    mark_end w = Returned completed w1 /\
    if completed then
      exists w2,
        verify w1 = Returned tt w2 /\
        trace w2 = trace w1 ++ [Call_workers_run_parallel_ZVerifyRootsTask;
                                Call_heap_iterator_objects_do false]
    else
      ZGlobalPhase (runtime w) <> ZPhaseMarkCompleted ->
      verify w1 = Halted "Invalid phase" w1.
Proof.
  intros Hsafe completed.
  assert (Hassert : forall w0, runtime w0 = runtime w ->
            assert (is_at_safepoint (runtime w0)) "Should be at safepoint" w0
            = Returned tt w0).
  { intros w0 Hw0. unfold assert, guarantee. rewrite Hw0.
    destruct (ASSERT (runtime w)); [|reflexivity]. rewrite Hsafe; reflexivity. }
  unfold mark_end, bind, SafepointSynchronize_is_at_safepoint, gets.
  rewrite (Hassert w eq_refl). unfold mark_end_call. fold completed.
  destruct completed; simpl.
  - eexists. split; [reflexivity|].
    unfold verify, bind, gets. simpl.
    unfold object_iterate, bind, SafepointSynchronize_is_at_safepoint, gets,
      assert, guarantee. simpl.
    destruct (ASSERT (runtime w)).
    + rewrite Hsafe by reflexivity. simpl. eexists. split; [reflexivity|].
      simpl. rewrite <- !app_assoc. reflexivity.
    + simpl. eexists. split; [reflexivity|].
      simpl. rewrite <- !app_assoc. reflexivity.
  - eexists. split; [reflexivity|]. intros Hph.
    unfold verify, bind, gets. simpl.
    destruct (ZGlobalPhase (runtime w)); simpl;
      first [reflexivity | contradiction].
Qed.

End MoreProperties.

Section VMProperties.

Context {X : ZCollaborators} {Y : ZVMCollaborators}.

Local Open Scope vm_scope.

(** ** Thread-local allocation buffers *)

(** X9.  [unsafe_max_tlab_alloc] never reports more than the largest TLAB.
    It reports the space the object allocator has left, capped at the
    largest TLAB, when the smallest TLAB fits in it, and the largest TLAB
    when it does not; so, the smallest TLAB being no larger than the
    largest, it never reports less than the smallest one. *)
Theorem unsafe_max_tlab_alloc_bounds (vm : VM) :
  let remaining := ZObjectAllocator_remaining (_object_allocator vm) in
  exists size,
    unsafe_max_tlab_alloc vm = VMReturned size vm /\
    size <= ZObjectSizeLimitSmall /\
    (remaining < MinTLABSize -> size = ZObjectSizeLimitSmall) /\
    (MinTLABSize <= remaining -> size = Z.min remaining ZObjectSizeLimitSmall) /\
    (MinTLABSize <= ZObjectSizeLimitSmall -> MinTLABSize <= size).
Proof.
  intros remaining.
  unfold unsafe_max_tlab_alloc, vm_bind, vm_gets, max_tlab_size, vm_ret.
  fold remaining.
  destruct (Z.ltb_spec remaining MinTLABSize) as [Hlt|Hge].
  - rewrite Z.ltb_irrefl. eexists. split; [reflexivity|].
    repeat split; intros; lia.
  - destruct (Z.ltb_spec remaining ZObjectSizeLimitSmall) as [Hlt'|Hge'];
      (eexists; split; [reflexivity|]); repeat split; intros; lia.
Qed.

(** ** Page allocation *)

(** X10.  A page obtained from [alloc_page] is found in the page table
    under its start address, and [undo_alloc_page] takes it out again and
    hands it back to the page allocator as not reclaimed; when the slot
    was free before the allocation, the page table is back to what it
    was.  The page is allocating, which is what [undo_alloc_page]
    asserts. *)
Theorem undo_alloc_page_undoes_alloc_page (type size flags : Z) (vm : VM) (p : ZPage) :
  fst (ZPageAllocator_alloc_page type size flags (_page_allocator (heap (vm_world vm))))
  = Some p ->
  (ASSERT (runtime (vm_world vm)) = true -> is_allocating p = true) ->
  exists vm1 vm2,
    lift (alloc_page type size flags) vm = VMReturned (Some p) vm1 /\
    _page_table (heap (vm_world vm1)) !! page_start p = Some p /\
    undo_alloc_page p vm1 = VMReturned tt vm2 /\
    _page_table (heap (vm_world vm2)) !! page_start p = None /\
    (_page_table (heap (vm_world vm)) !! page_start p = None ->
     _page_table (heap (vm_world vm2)) = _page_table (heap (vm_world vm))) /\
    trace (vm_world vm2)
    = trace (vm_world vm)
      ++ [Call_page_allocator_alloc_page type size flags (Some p);
          Call_page_table_insert p;
          Call_page_table_remove p;
          Call_page_allocator_free_page p false] /\
    vm_calls vm2
    = vm_calls vm
      ++ [(length (trace (vm_world vm1)), Call_ZStatInc ZCounterUndoPageAllocation);
          (length (trace (vm_world vm1)),
           Call_log_trace_undo_page_allocation p (page_size p))].
Proof.
  intros Halloc Hallocating.
  unfold lift, alloc_page, bind, page_allocator_alloc_page. rewrite Halloc. simpl.
  eexists. eexists. split; [reflexivity|]. simpl.
  split; [apply lookup_insert_eq|].
  assert (Hassert : forall w0, runtime w0 = runtime (vm_world vm) ->
            assert (is_allocating p) "Invalid page state" w0 = Returned tt w0).
  { intros w0 Hw0. unfold assert, guarantee. rewrite Hw0.
    destruct (ASSERT (runtime (vm_world vm))); [|reflexivity].
    rewrite Hallocating; reflexivity. }
  unfold undo_alloc_page, vm_bind, lift. simpl. rewrite Hassert by reflexivity.
  simpl. split; [reflexivity|]. simpl.
  split; [apply lookup_delete_eq|].
  split; [intros Hfree; apply delete_insert_id; exact Hfree|].
  split; [rewrite <- !app_assoc; reflexivity|].
  rewrite <- app_assoc. reflexivity.
Qed.

(** ** The checks of a debug build *)

(** X11.  In a build with assertions, outside a safepoint, [mark_start],
    [mark_end], [relocate_start] and [object_iterate] halt at once: no
    call has been made and nothing has changed.  Likewise
    [undo_alloc_page] halts at once on a page that is not allocating, with
    the page table untouched. *)
Theorem debug_build_checks (vm : VM) (page : ZPage) :
  ASSERT (runtime (vm_world vm)) = true ->
  (is_at_safepoint (runtime (vm_world vm)) = false ->
   mark_start vm = VMHalted "Should be at safepoint" vm /\
   relocate_start vm = VMHalted "Should be at safepoint" vm /\
   mark_end (vm_world vm) = Halted "Should be at safepoint" (vm_world vm) /\
   forall visit_referents,
     object_iterate visit_referents (vm_world vm)
     = Halted "Should be at safepoint" (vm_world vm)) /\
  (is_allocating page = false ->
   undo_alloc_page page vm = VMHalted "Invalid page state" vm).
Proof.
  intros Hdebug. destruct vm as [w oa calls]. simpl in *. split.
  - intros Hsafe.
    unfold mark_start, relocate_start, mark_end, object_iterate, vm_bind, lift,
      bind, SafepointSynchronize_is_at_safepoint, gets, assert, guarantee.
    simpl. rewrite Hdebug, Hsafe. unfold vm_with_world. simpl.
    repeat split.
  - intros Hpage. unfold undo_alloc_page, vm_bind, lift, assert, guarantee.
    simpl. rewrite Hdebug, Hpage. reflexivity.
Qed.

(** ** The phases of a cycle *)

Lemma assert_passes (cond : bool) (msg : string) (w : World) :
  (ASSERT (runtime w) = true -> cond = true) ->
  assert cond msg w = Returned tt w.
Proof.
  intros H. unfold assert, guarantee.
  destruct (ASSERT (runtime w)); [|reflexivity]. rewrite H; reflexivity.
Qed.

(** What [mark_start] does, at a safepoint. *)
Lemma mark_start_spec (vm : VM) :
  let w := vm_world vm in
  let r := ZMark_start (_mark (heap w)) (ZGlobalSeqNum (runtime w)) in
  (ASSERT (runtime w) = true -> is_at_safepoint (runtime w) = true) ->
  exists vm1,
    mark_start vm = VMReturned tt vm1 /\
    runtime (vm_world vm1)
      = rt_with_seqnum (snd r) (rt_with_phase ZPhaseMark (runtime w)) /\
    heap (vm_world vm1)
      = heap_with_mark (fst r)
          (heap_with_page_allocator
             (ZPageAllocator_reset_statistics (_page_allocator (heap w))) (heap w)) /\
    trace (vm_world vm1)
      = trace w ++ [Call_ZStatSample ZSamplerHeapUsedBeforeMark
                      (pa_used (_page_allocator (heap w)))] /\
    _object_allocator vm1 = ZObjectAllocator_retire_tlabs (_object_allocator vm).
Proof.
  intros w r Hsafe. subst w r. destruct vm as [w oa calls]. simpl in *.
  unfold mark_start, vm_bind, lift, SafepointSynchronize_is_at_safepoint, gets.
  simpl. rewrite (assert_passes _ _ w Hsafe). simpl.
  eexists. split; [reflexivity|]. simpl. repeat split.
Qed.

(** What [relocate_start] does, at a safepoint. *)
Lemma relocate_start_spec (vm : VM) :
  let w := vm_world vm in
  (ASSERT (runtime w) = true -> is_at_safepoint (runtime w) = true) ->
  exists vm1,
    relocate_start vm = VMReturned tt vm1 /\
    runtime (vm_world vm1) = rt_with_phase ZPhaseRelocate (runtime w) /\
    heap (vm_world vm1)
      = heap_with_relocate (ZRelocate_start (_relocate (heap w))) (heap w) /\
    trace (vm_world vm1)
      = trace w ++ [Call_ZStatSample ZSamplerHeapUsedBeforeRelocation
                      (pa_used (_page_allocator (heap w)))] /\
    _object_allocator vm1 = ZObjectAllocator_remap_tlabs (_object_allocator vm).
Proof.
  intros w Hsafe. subst w. destruct vm as [w oa calls]. simpl in *.
  unfold relocate_start, vm_bind, lift, SafepointSynchronize_is_at_safepoint, gets.
  simpl. rewrite (assert_passes _ _ w Hsafe). simpl.
  eexists. split; [reflexivity|]. simpl. repeat split.
Qed.

(** What a [mark_end] that finds marking terminated leaves. *)
Lemma mark_end_completed (w : World) :
  (ASSERT (runtime w) = true -> is_at_safepoint (runtime w) = true) ->
  fst (ZMark_end (_mark (heap w))) = true ->
  exists w1,
    mark_end w = Returned true w1 /\
    runtime w1 = rt_with_blocked true (rt_with_phase ZPhaseMarkCompleted (runtime w)) /\
    heap w1 = heap_with_mark (snd (ZMark_end (_mark (heap w)))) (heap w).
Proof.
  intros Hsafe Hdone.
  unfold mark_end, bind, SafepointSynchronize_is_at_safepoint, gets.
  rewrite (assert_passes _ _ w Hsafe). unfold mark_end_call. rewrite Hdone. simpl.
  eexists. split; [reflexivity|]. split; reflexivity.
Qed.

(** [relocate] changes the relocation engine only. *)
Lemma relocate_frame (w : World) :
  exists w1,
    relocate w = Returned tt w1 /\
    runtime w1 = runtime w /\
    heap w1 = heap_with_relocate
                (snd (ZRelocate_relocate (_relocate (heap w)) (_relocation_set (heap w))))
                (heap w).
Proof.
  unfold relocate, bind, relocate_relocate. simpl.
  eexists. split; [reflexivity|]. split; reflexivity.
Qed.

(** X12.  [verify] halts on its phase check right after [mark_start] and
    right after [relocate_start]: the first leaves the collector in the
    Mark phase, the second in the Relocate phase, and neither touches the
    page table, the forwarding table or the relocation set. *)
Theorem verify_halts_after_mark_start_and_relocate_start (vm : VM) :
  (ASSERT (runtime (vm_world vm)) = true ->
   is_at_safepoint (runtime (vm_world vm)) = true) ->
  (exists vm1,
     mark_start vm = VMReturned tt vm1 /\
     ZGlobalPhase (runtime (vm_world vm1)) = ZPhaseMark /\
     _page_table (heap (vm_world vm1)) = _page_table (heap (vm_world vm)) /\
     _forwarding_table (heap (vm_world vm1)) = _forwarding_table (heap (vm_world vm)) /\
     _relocation_set (heap (vm_world vm1)) = _relocation_set (heap (vm_world vm)) /\
     verify (vm_world vm1) = Halted "Invalid phase" (vm_world vm1)) /\
  (exists vm1,
     relocate_start vm = VMReturned tt vm1 /\
     ZGlobalPhase (runtime (vm_world vm1)) = ZPhaseRelocate /\
     _page_table (heap (vm_world vm1)) = _page_table (heap (vm_world vm)) /\
     _forwarding_table (heap (vm_world vm1)) = _forwarding_table (heap (vm_world vm)) /\
     _relocation_set (heap (vm_world vm1)) = _relocation_set (heap (vm_world vm)) /\
     verify (vm_world vm1) = Halted "Invalid phase" (vm_world vm1)).
Proof.
  intros Hsafe. split.
  - destruct (mark_start_spec vm Hsafe) as (vm1 & Hrun & Hrt & Hheap & _).
    exists vm1. split; [exact Hrun|]. rewrite Hheap.
    split; [rewrite Hrt; reflexivity|]. repeat (split; [reflexivity|]).
    unfold verify, bind, gets. rewrite Hrt. reflexivity.
  - destruct (relocate_start_spec vm Hsafe) as (vm1 & Hrun & Hrt & Hheap & _).
    exists vm1. split; [exact Hrun|]. rewrite Hheap.
    split; [rewrite Hrt; reflexivity|]. repeat (split; [reflexivity|]).
    unfold verify, bind, gets. rewrite Hrt. reflexivity.
Qed.

(** X13.  A cycle in which marking terminates at the first [mark_end]:
    [mark_start], [mark_end], [select_relocation_set], [relocate_start],
    [relocate], [reset_relocation_set].  Every step runs to its end, and
    the phase after each is Mark, MarkCompleted, MarkCompleted, Relocate,
    Relocate, Relocate; the cycle ends with an empty relocation set. *)
Theorem cycle_phases (vm : VM) :
  let w := vm_world vm in
  (ASSERT (runtime w) = true -> is_at_safepoint (runtime w) = true) ->
  fst (ZMark_end (fst (ZMark_start (_mark (heap w)) (ZGlobalSeqNum (runtime w))))) = true ->
  exists vm1 w2 w3 vm4 w5 w6,
    mark_start vm = VMReturned tt vm1 /\
    ZGlobalPhase (runtime (vm_world vm1)) = ZPhaseMark /\
    mark_end (vm_world vm1) = Returned true w2 /\
    ZGlobalPhase (runtime w2) = ZPhaseMarkCompleted /\
    select_relocation_set w2 = Returned tt w3 /\
    ZGlobalPhase (runtime w3) = ZPhaseMarkCompleted /\
    relocate_start (vm_with_world w3 vm1) = VMReturned tt vm4 /\
    ZGlobalPhase (runtime (vm_world vm4)) = ZPhaseRelocate /\
    relocate (vm_world vm4) = Returned tt w5 /\
    ZGlobalPhase (runtime w5) = ZPhaseRelocate /\
    reset_relocation_set w5 = Returned tt w6 /\
    ZGlobalPhase (runtime w6) = ZPhaseRelocate /\
    _relocation_set (heap w6) = [].
Proof.
  intros w Hsafe Hdone. subst w.
  destruct (mark_start_spec vm Hsafe) as (vm1 & Hrun1 & Hrt1 & Hheap1 & _).
  assert (Hsafe1 : ASSERT (runtime (vm_world vm1)) = true ->
                   is_at_safepoint (runtime (vm_world vm1)) = true)
    by (rewrite Hrt1; exact Hsafe).
  destruct (mark_end_completed (vm_world vm1) Hsafe1) as (w2 & Hrun2 & Hrt2 & _).
  { rewrite Hheap1. exact Hdone. }
  destruct (select_relocation_set_frame w2) as (w3 & Hrun3 & Hrt3).
  assert (Hsafe3 : ASSERT (runtime w3) = true -> is_at_safepoint (runtime w3) = true)
    by (rewrite Hrt3, Hrt2, Hrt1; exact Hsafe).
  destruct (relocate_start_spec (vm_with_world w3 vm1) Hsafe3)
    as (vm4 & Hrun4 & Hrt4 & _).
  destruct (relocate_frame (vm_world vm4)) as (w5 & Hrun5 & Hrt5 & _).
  exists vm1, w2, w3, vm4, w5. eexists.
  split; [exact Hrun1|]. split; [rewrite Hrt1; reflexivity|].
  split; [exact Hrun2|]. split; [rewrite Hrt2; reflexivity|].
  split; [exact Hrun3|]. split; [rewrite Hrt3, Hrt2; reflexivity|].
  split; [exact Hrun4|]. split; [rewrite Hrt4; reflexivity|].
  split; [exact Hrun5|]. split; [rewrite Hrt5, Hrt4; reflexivity|].
  split; [apply reset_relocation_set_spec|]. simpl.
  split; [rewrite Hrt5, Hrt4; reflexivity|]. reflexivity.
Qed.

(** X17.  A cycle that starts with the collector at rest ends with the
    collector at rest: after [mark_start], [mark_end],
    [select_relocation_set], [relocate_start], [relocate] and
    [reset_relocation_set], with marking terminated at the first
    [mark_end], the phase is Relocate, the relocation set is empty and the
    forwarding table is empty again.  In between, through the end of the
    selection, the collector is not at rest. *)
Theorem cycle_returns_to_idle (vm : VM) :
  let w := vm_world vm in
  collector_idle w ->
  (ASSERT (runtime w) = true -> is_at_safepoint (runtime w) = true) ->
  fst (ZMark_end (fst (ZMark_start (_mark (heap w)) (ZGlobalSeqNum (runtime w))))) = true ->
  exists vm1 w2 w3 vm4 w5 w6,
    mark_start vm = VMReturned tt vm1 /\
    ~ collector_idle (vm_world vm1) /\
    mark_end (vm_world vm1) = Returned true w2 /\
    ~ collector_idle w2 /\
    select_relocation_set w2 = Returned tt w3 /\
    ~ collector_idle w3 /\
    relocate_start (vm_with_world w3 vm1) = VMReturned tt vm4 /\
    relocate (vm_world vm4) = Returned tt w5 /\
    reset_relocation_set w5 = Returned tt w6 /\
    collector_idle w6.
Proof.
  intros w (_ & Hrs & Hft) Hsafe Hdone. subst w.
  destruct (mark_start_spec vm Hsafe) as (vm1 & Hrun1 & Hrt1 & Hheap1 & _).
  assert (Hsafe1 : ASSERT (runtime (vm_world vm1)) = true ->
                   is_at_safepoint (runtime (vm_world vm1)) = true)
    by (rewrite Hrt1; exact Hsafe).
  destruct (mark_end_completed (vm_world vm1) Hsafe1) as (w2 & Hrun2 & Hrt2 & Hheap2).
  { rewrite Hheap1. exact Hdone. }
  destruct (select_relocation_set_from_empty_forwarding_table w2)
    as (w3 & Hrun3 & Hrt3 & Hfs3).
  { rewrite Hheap2, Hheap1. exact Hft. }
  assert (Hsafe3 : ASSERT (runtime w3) = true -> is_at_safepoint (runtime w3) = true)
    by (rewrite Hrt3, Hrt2, Hrt1; exact Hsafe).
  destruct (relocate_start_spec (vm_with_world w3 vm1) Hsafe3)
    as (vm4 & Hrun4 & Hrt4 & Hheap4 & _).
  destruct (relocate_frame (vm_world vm4)) as (w5 & Hrun5 & Hrt5 & Hheap5).
  destruct (reset_relocation_set_idle w5) as (w6 & Hrun6 & Hidle).
  { rewrite Hrt5, Hrt4. reflexivity. }
  { intros k f Hk. rewrite Hheap5, Hheap4 in Hk. simpl in Hk.
    rewrite Hheap5, Hheap4. simpl. apply Hfs3. exact Hk. }
  exists vm1, w2, w3, vm4, w5, w6.
  split; [exact Hrun1|].
  split; [intros (Hph & _); rewrite Hrt1 in Hph; discriminate Hph|].
  split; [exact Hrun2|].
  split; [intros (Hph & _); rewrite Hrt2 in Hph; discriminate Hph|].
  split; [exact Hrun3|].
  split; [intros (Hph & _); rewrite Hrt3, Hrt2 in Hph; discriminate Hph|].
  split; [exact Hrun4|]. split; [exact Hrun5|]. split; [exact Hrun6|exact Hidle].
Qed.

(** X16.  A [mark_end] that finds work left can be retried after [mark]:
    the first call leaves the phase alone, the second, finding marking
    terminated, enters MarkCompleted and blocks resurrection, and the steps
    that follow termination are taken once, by the second call. *)
Theorem mark_end_after_mark (vm : VM) :
  let w := vm_world vm in
  let m1 := snd (ZMark_end (_mark (heap w))) in
  (ASSERT (runtime w) = true -> is_at_safepoint (runtime w) = true) ->
  fst (ZMark_end (_mark (heap w))) = false ->
  fst (ZMark_end (ZMark_mark m1)) = true ->
  exists w1 vm2 w3,
    mark_end w = Returned false w1 /\
    ZGlobalPhase (runtime w1) = ZGlobalPhase (runtime w) /\
    mark (vm_with_world w1 vm) = VMReturned tt vm2 /\
    mark_end (vm_world vm2) = Returned true w3 /\
    ZGlobalPhase (runtime w3) = ZPhaseMarkCompleted /\
    ZResurrection_blocked (runtime w3) = true /\
    trace w3
    = trace w
      ++ [Call_mark_end false;
          Call_mark_end true;
          Call_MetaspaceGC_compute_new_size;
          Call_ZStatSample ZSamplerHeapUsedAfterMark
            (pa_used (_page_allocator (heap w)));
          Call_ZStatHeap_set_at_mark_end
            (pa_capacity (_page_allocator (heap w)))
            (pa_allocated (_page_allocator (heap w)))
            (pa_used (_page_allocator (heap w)));
          Call_ZResurrection_block;
          Call_weak_roots_processor_process_weak_roots;
          Call_unload_prepare].
Proof.
  intros w m1 Hsafe Hleft Hdone. subst w m1.
  destruct vm as [w oa calls]. simpl in *.
  unfold mark_end at 1. unfold bind, SafepointSynchronize_is_at_safepoint, gets.
  rewrite (assert_passes _ _ w Hsafe). unfold mark_end_call. rewrite Hleft. simpl.
  eexists. eexists. eexists. split; [reflexivity|]. split; [reflexivity|].
  unfold mark, mark_mark_call, vm_modify. simpl. split; [reflexivity|]. simpl.
  unfold mark_end, bind, SafepointSynchronize_is_at_safepoint, gets.
  rewrite assert_passes by exact Hsafe.
  unfold mark_end_call. simpl. rewrite Hdone. simpl.
  split; [reflexivity|]. simpl. split; [reflexivity|]. split; [reflexivity|].
  rewrite <- !app_assoc. reflexivity.
Qed.

(** ** Iteration over the pages *)

Lemma vm_page_table_iterate_call (ev : ZPage -> VMCall) (l : list (Z * ZPage)) (vm : VM) :
  (forall k v, In (k, v) l -> _page_table (heap (vm_world vm)) !! k = Some v) ->
  vm_page_table_iterate (fst <$> l) (fun page => vm_call (ev page)) vm
  = VMReturned tt
      {| vm_world := vm_world vm;
         _object_allocator := _object_allocator vm;
         vm_calls := vm_calls vm
                     ++ ((fun page => (length (trace (vm_world vm)), ev page))
                           <$> (snd <$> l)) |}.
Proof.
  revert vm. induction l as [|[k v] l IH]; intros vm Hl.
  - simpl. rewrite app_nil_r. destruct vm; reflexivity.
  - cbn [fmap list_fmap fst snd vm_page_table_iterate].
    rewrite (Hl k v (or_introl eq_refl)).
    unfold vm_call at 1, vm_modify at 1. rewrite IH.
    + simpl. rewrite <- app_assoc. reflexivity.
    + intros k' v' Hin. simpl. apply Hl. right. exact Hin.
Qed.

(** X14.  [pages_do] applies the closure to the page of every entry of
    the page table, once per entry, and then hands the closure to the page
    allocator; it makes no other call and leaves the heap as it is. *)
Theorem pages_do_visits_page_table (vm : VM) :
  let now := length (trace (vm_world vm)) in
  exists vm',
    pages_do vm = VMReturned tt vm' /\
    vm_world vm' = vm_world vm /\
    _object_allocator vm' = _object_allocator vm /\
    vm_calls vm'
    = vm_calls vm
      ++ ((fun page => (now, Call_closure_do_page page))
            <$> (snd <$> page_table_entries (_page_table (heap (vm_world vm)))))
      ++ [(now, Call_page_allocator_pages_do)].
Proof.
  intros now. unfold pages_do, vm_bind, lift, page_table_slots, gets.
  destruct vm as [w oa calls]. simpl in *.
  rewrite (vm_page_table_iterate_call Call_closure_do_page
             (page_table_entries (_page_table (heap w)))
             (vm_with_world w {| vm_world := w; _object_allocator := oa;
                                 vm_calls := calls |}))
    by (intros k v Hin; simpl; apply page_table_entries_lookup; exact Hin).
  simpl. eexists. split; [reflexivity|]. simpl.
  repeat split. rewrite <- app_assoc. reflexivity.
Qed.

End VMProperties.

(** * The further properties on the small heap *)

Lemma select_relocation_set_page_table_witness :
  exists w',
    select_relocation_set (Scenario.world0 ZPhaseMarkCompleted) = Returned tt w' /\
    _page_table (heap w') !! page_start Scenario.live_page = Some Scenario.live_page.
Proof.
  destruct (select_relocation_set_page_table (Scenario.world0 ZPhaseMarkCompleted))
    as (w' & Hrun & Hiff & _).
  - exact scenario_page_table_wf.
  - exists w'. split; [exact Hrun|]. apply Hiff. split; reflexivity.
Defined.

Lemma select_relocation_set_selects_live_pages_witness :
  exists w',
    select_relocation_set (Scenario.world0 ZPhaseMarkCompleted) = Returned tt w' /\
    forall f, In f (_relocation_set (heap w')) ->
      is_marked (forwarding_page f) = true.
Proof.
  destruct (select_relocation_set_selects_live_pages
              (Scenario.world0 ZPhaseMarkCompleted))
    as (w' & Hrun & Hlive).
  - exact scenario_selects_registered_live.
  - exact scenario_page_table_wf.
  - exists w'. split; [exact Hrun|]. intros f Hf. apply (Hlive f Hf).
Defined.

Lemma select_relocation_set_nothing_relocatable_witness :
  exists w',
    select_relocation_set VMScenario.world_fresh = Returned tt w' /\
    _relocation_set (heap w') = [].
Proof.
  destruct (select_relocation_set_nothing_relocatable VMScenario.world_fresh)
    as (w' & Hrun & _ & _ & Hrs & _).
  - exact scenario_selects_registered_live.
  - intros k p H. simpl in H. apply lookup_insert_Some in H.
    destruct H as [[_ <-]|[_ H]]; [reflexivity|].
    rewrite lookup_empty in H. discriminate H.
  - exists w'. split; [exact Hrun|exact Hrs].
Defined.

Lemma select_then_reset_relocation_set_witness :
  exists w1 w2,
    select_relocation_set (Scenario.world0 ZPhaseMarkCompleted) = Returned tt w1 /\
    reset_relocation_set w1 = Returned tt w2 /\
    _forwarding_table (heap w2) = ∅.
Proof.
  destruct (select_then_reset_relocation_set (Scenario.world0 ZPhaseMarkCompleted))
    as (w1 & w2 & Hrun1 & Hrun2 & _ & _ & Hft).
  exists w1, w2. split; [exact Hrun1|]. split; [exact Hrun2|].
  apply Hft. intros f _. apply lookup_empty.
Defined.

Lemma non_strong_references_sequence_witness :
  exists w',
    (bind process_non_strong_references
       (fun _ => bind unload_class (fun _ => finish_non_strong_references)))
      (Scenario.world0 ZPhaseMarkCompleted)
    = Returned tt w' /\
    ZResurrection_blocked (runtime w') = false.
Proof.
  destruct (non_strong_references_sequence (Scenario.world0 ZPhaseMarkCompleted))
    as [Hon _].
  destruct Hon as (w' & Hrun & _ & Hb); [vm_compute; reflexivity|].
  exists w'. split; [exact Hrun|exact Hb].
Defined.

Lemma verify_after_mark_end_witness :
  exists w1,
    mark_end (Scenario.world0 ZPhaseMark) = Returned true w1 /\
    exists w2, verify w1 = Returned tt w2.
Proof.
  destruct (verify_after_mark_end (Scenario.world0 ZPhaseMark))
    as (w1 & Hrun & w2 & Hverify & _).
  - simpl. reflexivity.
  - exists w1. split; [exact Hrun|]. exists w2. exact Hverify.
Defined.

Lemma unsafe_max_tlab_alloc_bounds_witness :
  exists size,
    unsafe_max_tlab_alloc (VMScenario.vm0 ZPhaseRelocate 100)
    = VMReturned size (VMScenario.vm0 ZPhaseRelocate 100) /\
    size = 262144 /\ 2048 <= size.
Proof.
  destruct (unsafe_max_tlab_alloc_bounds (VMScenario.vm0 ZPhaseRelocate 100))
    as (size & Hrun & _ & Hsmall & _ & Hmin).
  exists size. split; [exact Hrun|]. split.
  - apply Hsmall. simpl. lia.
  - apply Hmin. simpl. lia.
Defined.

Lemma undo_alloc_page_undoes_alloc_page_witness :
  exists p vm1 vm2,
    lift (alloc_page 0 Scenario.granule 0) (VMScenario.vm0 ZPhaseRelocate 0)
    = VMReturned (Some p) vm1 /\
    undo_alloc_page p vm1 = VMReturned tt vm2 /\
    _page_table (heap (vm_world vm2)) = Scenario.page_table0.
Proof.
  eexists.
  destruct (undo_alloc_page_undoes_alloc_page 0 Scenario.granule 0
              (VMScenario.vm0 ZPhaseRelocate 0) _ eq_refl)
    as (vm1 & vm2 & Halloc & _ & Hundo & _ & Hback & _).
  - intros _. reflexivity.
  - exists vm1, vm2. split; [exact Halloc|]. split; [exact Hundo|].
    apply Hback. vm_compute. reflexivity.
Defined.

Lemma debug_build_checks_witness :
  mark_start VMScenario.vm_running
  = VMHalted "Should be at safepoint" VMScenario.vm_running /\
  undo_alloc_page Scenario.live_page VMScenario.vm_running
  = VMHalted "Invalid page state" VMScenario.vm_running.
Proof.
  destruct (debug_build_checks VMScenario.vm_running Scenario.live_page eq_refl)
    as [Hsafepoint Hpage].
  split.
  - apply Hsafepoint. reflexivity.
  - apply Hpage. reflexivity.
Defined.

Lemma verify_halts_after_mark_start_and_relocate_start_witness :
  exists vm1,
    mark_start (VMScenario.vm0 ZPhaseRelocate 0) = VMReturned tt vm1 /\
    verify (vm_world vm1) = Halted "Invalid phase" (vm_world vm1).
Proof.
  destruct (verify_halts_after_mark_start_and_relocate_start
              (VMScenario.vm0 ZPhaseRelocate 0))
    as [(vm1 & Hrun & _ & _ & _ & _ & Hverify) _].
  - simpl. reflexivity.
  - exists vm1. split; [exact Hrun|exact Hverify].
Defined.

Lemma cycle_phases_witness :
  exists vm1 w2,
    mark_start (VMScenario.vm0 ZPhaseRelocate 0) = VMReturned tt vm1 /\
    mark_end (vm_world vm1) = Returned true w2 /\
    ZGlobalPhase (runtime w2) = ZPhaseMarkCompleted.
Proof.
  destruct (cycle_phases (VMScenario.vm0 ZPhaseRelocate 0))
    as (vm1 & w2 & w3 & vm4 & w5 & w6 & Hrun1 & _ & Hrun2 & Hph2 & _).
  - simpl. reflexivity.
  - reflexivity.
  - exists vm1, w2. split; [exact Hrun1|]. split; [exact Hrun2|exact Hph2].
Defined.

Lemma select_relocation_set_twice_witness :
  exists w1 w2,
    select_relocation_set (Scenario.world0 ZPhaseMarkCompleted) = Returned tt w1 /\
    select_relocation_set w1 = Returned tt w2 /\
    _page_table (heap w2) = _page_table (heap w1).
Proof.
  apply (select_relocation_set_twice (Scenario.world0 ZPhaseMarkCompleted)).
  exact scenario_page_table_wf.
Defined.

Lemma mark_end_after_mark_witness :
  exists w1 vm2 w3,
    mark_end Scenario.world_marking = Returned false w1 /\
    mark (vm_with_world w1 (VMScenario.vm0 ZPhaseMark 0)) = VMReturned tt vm2 /\
    mark_end (vm_world vm2) = Returned true w3 /\
    ZGlobalPhase (runtime w3) = ZPhaseMarkCompleted.
Proof.
  destruct (mark_end_after_mark
              (vm_with_world Scenario.world_marking (VMScenario.vm0 ZPhaseMark 0)))
    as (w1 & vm2 & w3 & Hrun1 & _ & Hrun2 & Hrun3 & Hph & _).
  - simpl. reflexivity.
  - reflexivity.
  - reflexivity.
  - exists w1, vm2, w3. split; [exact Hrun1|]. split; [exact Hrun2|].
    split; [exact Hrun3|exact Hph].
Defined.

Lemma cycle_returns_to_idle_witness :
  exists vm1 w2 w3 vm4 w5 w6,
    mark_start (VMScenario.vm0 ZPhaseRelocate 0) = VMReturned tt vm1 /\
    mark_end (vm_world vm1) = Returned true w2 /\
    select_relocation_set w2 = Returned tt w3 /\
    relocate_start (vm_with_world w3 vm1) = VMReturned tt vm4 /\
    relocate (vm_world vm4) = Returned tt w5 /\
    reset_relocation_set w5 = Returned tt w6 /\
    collector_idle w6.
Proof.
  destruct (cycle_returns_to_idle (VMScenario.vm0 ZPhaseRelocate 0))
    as (vm1 & w2 & w3 & vm4 & w5 & w6 & H1 & _ & H2 & _ & H3 & _ & H4 & H5 & H6 & Hidle).
  - repeat split.
  - simpl. reflexivity.
  - reflexivity.
  - exists vm1, w2, w3, vm4, w5, w6. repeat (split; [assumption|]). exact Hidle.
Defined.
